(** * PayEasy: Supabase client accessors and the authentication hook

    A shallow embedding of
    - [lib/supabase/client.ts]  (browser client accessor),
    - [lib/supabase/server.ts]  (admin client, cookie-scoped client, helpers),
    - [hooks/useAuth.ts]        (authentication state hook),
    followed by the properties the specification states about them.

    Module-level variables, [process.env], the request's cookie store and the
    calls that leave the repository (SDK, framework) live in an explicit
    state; exceptions are an outcome of the computation. *)

From Stdlib Require Import Ascii String List Bool Arith Lia.
From stdpp Require Import base strings gmap list.
Import ListNotations.

Local Open Scope list_scope.

(* ===================================================================== *)
(** * JavaScript: thrown values, outcomes, the state-and-exception monad  *)
(* ===================================================================== *)

Module Js.

(** What a [throw] statement or a rejected promise carries.  The sources
    only ever ask two things of such a value: [err instanceof Error] and
    [err.message]. *)
Inductive thrown : Type :=
| ErrorInstance (message : string)
    (** an object whose prototype chain contains [Error] *)
| NonError (message : option string)
    (** any other value; it may still have a [message] property *).

Definition instanceof_Error (v : thrown) : bool :=
  match v with
  | ErrorInstance _ => true
  | NonError _ => false
  end.

(** [v.message], [None] standing for [undefined]. *)
Definition message_of (v : thrown) : option string :=
  match v with
  | ErrorInstance m => Some m
  | NonError m => m
  end.

(** [err instanceof Error ? err.message : fallback] *)
Definition message_or (fallback : string) (v : thrown) : string :=
  match v with
  | ErrorInstance m => m
  | NonError _ => fallback
  end.

(** [!v] for a value of type [string | undefined]: the empty string and
    [undefined] are the falsy ones. *)
Definition not_ (v : option string) : bool :=
  match v with
  | None => true
  | Some EmptyString => true
  | Some (String _ _) => false
  end.

Inductive outcome (A : Type) : Type :=
| Return (a : A)
| Throw (v : thrown).
Arguments Return {A} a.
Arguments Throw {A} v.

(** A computation over a state [St].  For an [async] function the [Throw]
    outcome is the rejection of the promise it returns and [Return] its
    fulfilment. *)
Definition M (St A : Type) : Type := St -> outcome A * St.

Definition ret {St A} (a : A) : M St A := fun s => (Return a, s).

Definition bind {St A B} (m : M St A) (k : A -> M St B) : M St B :=
  fun s =>
    match m s with
    | (Return a, s') => k a s'
    | (Throw v, s') => (Throw v, s')
    end.

Definition throw {St A} (v : thrown) : M St A := fun s => (Throw v, s).

Definition gets {St A} (f : St -> A) : M St A := fun s => (Return (f s), s).

Definition modify {St} (f : St -> St) : M St unit := fun s => (Return tt, f s).

(** [try { body } catch (err) { handler(err) }] *)
Definition try_catch {St A} (body : M St A) (handler : thrown -> M St A)
  : M St A :=
  fun s =>
    match body s with
    | (Return a, s') => (Return a, s')
    | (Throw v, s') => handler v s'
    end.

(** [try { body } finally { fin }]: [fin] runs on both exits; the outcome
    of [body] stands unless [fin] itself throws. *)
Definition try_finally {St A} (body : M St A) (fin : M St unit) : M St A :=
  fun s =>
    match body s with
    | (r, s') =>
        match fin s' with
        | (Return _, s'') => (r, s'')
        | (Throw v, s'') => (Throw v, s'')
        end
    end.

#[global] Instance M_ret {St} : MRet (M St) := @ret St.
#[global] Instance M_bind {St} : MBind (M St) := fun A B k m => bind m k.

End Js.

Import Js.

(* ===================================================================== *)
(** * The Supabase SDK and the framework, as seen from the repository     *)
(* ===================================================================== *)

(** The [auth] block of the options object handed to an SDK constructor. *)
Record AuthOptions : Type := {
  autoRefreshToken : bool;
  persistSession : bool;
  detectSessionInUrl : bool;
  flowType : option string;
}.

(** Which SDK constructor built a client. *)
Inductive Factory : Type :=
| SsrBrowserClient   (* createBrowserClient of @supabase/ssr *)
| SupabaseJsClient   (* createClient of @supabase/supabase-js *)
| SsrServerClient    (* createServerClient of @supabase/ssr *).

Record ClientOptions : Type := {
  auth : AuthOptions;
  headers : list (string * string);   (* global.headers *)
  db_schema : option string;          (* db.schema *)
  cookie_methods : bool;              (* a [cookies: { getAll, setAll }] block *)
}.

(** A client handle.  [oid] is the identity of the object: [===] on two
    clients compares it.  The other fields record the constructor call that
    returned the handle. *)
Record SupabaseClient : Type := {
  oid : nat;
  factory : Factory;
  supabaseUrl : string;
  supabaseKey : string;
  options : ClientOptions;
}.

Record User : Type := {
  user_id : string;
  user_email : option string;
}.

Record Session : Type := {
  access_token : string;
  session_user : User;
}.

(** [AuthError] extends [Error]. *)
Record AuthError : Type := { auth_message : string }.

Definition thrown_of_AuthError (e : AuthError) : thrown :=
  ErrorInstance (auth_message e).

(** What an awaited SDK call can come back with: a rejection, or a response
    object [{ data, error }]. *)
Record Response (A : Type) : Type := {
  resp_data : option A;
  resp_error : option AuthError;
}.
Arguments resp_data {A} r.
Arguments resp_error {A} r.

Inductive Settled (A : Type) : Type :=
| Fulfilled (r : Response A)
| Rejected (v : thrown).
Arguments Fulfilled {A} r.
Arguments Rejected {A} v.

(** One cookie of the request, and one cookie handed to [setAll]. *)
Record Cookie : Type := {
  name : string;
  value : string;
}.

Record CookieToSet : Type := {
  set_name : string;
  set_value : string;
  set_options : list (string * string);
}.

(** The object [await cookies()] resolves to: its content, and its [set]
    method, which either throws or yields the new content. *)
Record CookieStore : Type := {
  jar : list Cookie;
  set_method : string -> string -> list (string * string) -> list Cookie ->
               thrown + list Cookie;
}.

(** Calls that leave the repository. *)
Inductive ExternalCall : Type :=
| Construct (c : SupabaseClient)
| ConstructThrew (f : Factory) (url key : string)
| NextCookies
| CookieStoreGetAll
| CookieStoreSet (nm vl : string)
| AuthGetUser
| AuthGetSession.

(** The SDK is not part of the repository; what its constructors do beyond
    the arguments they are given is a parameter of the world:
    - they check the URL and the key themselves and throw on what they do
      not accept (a malformed URL);
    - [createBrowserClient] of @supabase/ssr, when it runs in a browser,
      keeps the first client it builds and returns that one from then on. *)
Record Sdk : Type := {
  sdk_rejects : Factory -> string -> string -> option thrown;
  ssr_isBrowser : bool;
  ssr_cachedBrowserClient : option nat;
}.

(** The process the two library modules run in. *)
Record World : Type := {
  env : gmap string string;                    (* process.env *)
  clientInstance : option SupabaseClient;      (* client.ts *)
  adminClientInstance : option SupabaseClient; (* server.ts *)
  next_oid : nat;                              (* object allocator *)
  calls : list ExternalCall;                   (* calls made so far *)
  cookies_unavailable : option thrown;         (* [cookies()] rejects with it *)
  cookieStore : CookieStore;                   (* the request's cookie store *)
  getUser_result : Settled User;               (* what auth.getUser() settles to *)
  getSession_result : Settled Session;         (* what auth.getSession() settles to *)
  sdk : Sdk;                                   (* the SDK's constructors *)
}.

Definition set_clientInstance (v : option SupabaseClient) (w : World) : World :=
  {| env := env w; clientInstance := v;
     adminClientInstance := adminClientInstance w; next_oid := next_oid w;
     calls := calls w; cookies_unavailable := cookies_unavailable w;
     cookieStore := cookieStore w; getUser_result := getUser_result w;
     getSession_result := getSession_result w; sdk := sdk w |}.

Definition set_adminClientInstance (v : option SupabaseClient) (w : World) : World :=
  {| env := env w; clientInstance := clientInstance w;
     adminClientInstance := v; next_oid := next_oid w;
     calls := calls w; cookies_unavailable := cookies_unavailable w;
     cookieStore := cookieStore w; getUser_result := getUser_result w;
     getSession_result := getSession_result w; sdk := sdk w |}.

Definition log_call (c : ExternalCall) (w : World) : World :=
  {| env := env w; clientInstance := clientInstance w;
     adminClientInstance := adminClientInstance w; next_oid := next_oid w;
     calls := calls w ++ [c]; cookies_unavailable := cookies_unavailable w;
     cookieStore := cookieStore w; getUser_result := getUser_result w;
     getSession_result := getSession_result w; sdk := sdk w |}.

Definition bump_oid (w : World) : World :=
  {| env := env w; clientInstance := clientInstance w;
     adminClientInstance := adminClientInstance w; next_oid := S (next_oid w);
     calls := calls w; cookies_unavailable := cookies_unavailable w;
     cookieStore := cookieStore w; getUser_result := getUser_result w;
     getSession_result := getSession_result w; sdk := sdk w |}.

Definition set_jar (j : list Cookie) (w : World) : World :=
  {| env := env w; clientInstance := clientInstance w;
     adminClientInstance := adminClientInstance w; next_oid := next_oid w;
     calls := calls w; cookies_unavailable := cookies_unavailable w;
     cookieStore := {| jar := j; set_method := set_method (cookieStore w) |};
     getUser_result := getUser_result w;
     getSession_result := getSession_result w; sdk := sdk w |}.

(** What a constructor call comes to. *)
Inductive Construction : Type :=
| Refuses (v : thrown)   (* the constructor throws [v] *)
| Reuses (n : nat)       (* it returns the object [n] it has kept *)
| Allocates              (* it returns a new object *).

Definition is_SsrBrowserClient (f : Factory) : bool :=
  match f with
  | SsrBrowserClient => true
  | _ => false
  end.

Definition sdk_decides (s : Sdk) (f : Factory) (url key : string)
  : Construction :=
  if is_SsrBrowserClient f && ssr_isBrowser s
  then match ssr_cachedBrowserClient s with
       | Some n => Reuses n
       | None =>
           match sdk_rejects s f url key with
           | Some v => Refuses v
           | None => Allocates
           end
       end
  else match sdk_rejects s f url key with
       | Some v => Refuses v
       | None => Allocates
       end.

(** @supabase/ssr keeps the browser client it has just built. *)
Definition keep_browser_client (f : Factory) (n : nat) (w : World) : World :=
  {| env := env w; clientInstance := clientInstance w;
     adminClientInstance := adminClientInstance w; next_oid := next_oid w;
     calls := calls w; cookies_unavailable := cookies_unavailable w;
     cookieStore := cookieStore w; getUser_result := getUser_result w;
     getSession_result := getSession_result w;
     sdk := {| sdk_rejects := sdk_rejects (sdk w);
               ssr_isBrowser := ssr_isBrowser (sdk w);
               ssr_cachedBrowserClient :=
                 if is_SsrBrowserClient f && ssr_isBrowser (sdk w)
                 then Some n
                 else ssr_cachedBrowserClient (sdk w) |} |}.

(** An SDK constructor called with [url], [key] and [opts]. *)
Definition sdk_construct (f : Factory) (url key : string) (opts : ClientOptions)
  : M World SupabaseClient :=
  s ← gets sdk;
  match sdk_decides s f url key with
  | Refuses v =>
      modify (log_call (ConstructThrew f url key));;
      throw v
  | Reuses n =>
      let c := {| oid := n; factory := f; supabaseUrl := url;
                  supabaseKey := key; options := opts |} in
      modify (log_call (Construct c));;
      mret c
  | Allocates =>
      n ← gets next_oid;
      let c := {| oid := n; factory := f; supabaseUrl := url;
                  supabaseKey := key; options := opts |} in
      modify bump_oid;;
      modify (log_call (Construct c));;
      modify (keep_browser_client f n);;
      mret c
  end.

(** [await cookies()] of next/headers. *)
Definition next_cookies : M World unit :=
  modify (log_call NextCookies);;
  failure ← gets cookies_unavailable;
  match failure with
  | Some v => throw v
  | None => mret tt
  end.

(** [cookieStore.getAll()] *)
Definition cookieStore_getAll : M World (list Cookie) :=
  modify (log_call CookieStoreGetAll);;
  gets (fun w => jar (cookieStore w)).

(** [cookieStore.set(name, value, options)] *)
Definition cookieStore_set (nm vl : string) (opts : list (string * string))
  : M World unit :=
  modify (log_call (CookieStoreSet nm vl));;
  store ← gets cookieStore;
  match set_method store nm vl opts (jar store) with
  | inl v => throw v
  | inr j => modify (set_jar j)
  end.

(** [await supabase.auth.getUser()] and [await supabase.auth.getSession()]:
    a rejection is thrown at the [await], a response is handed over. *)
Definition await_settled {A} (call : ExternalCall) (result : World -> Settled A)
  : M World (Response A) :=
  modify (log_call call);;
  r ← gets result;
  match r with
  | Rejected v => throw v
  | Fulfilled resp => mret resp
  end.

(** [array.forEach(f)] *)
Fixpoint forEach {St A} (f : A -> M St unit) (l : list A) : M St unit :=
  match l with
  | [] => mret tt
  | x :: rest => f x;; forEach f rest
  end.

(* ===================================================================== *)
(** * lib/supabase/client.ts                                              *)
(* ===================================================================== *)

Module Client.

Definition missing_env_message : string :=
  "❌ Missing Supabase environment variables. Please set NEXT_PUBLIC_SUPABASE_URL and NEXT_PUBLIC_SUPABASE_ANON_KEY".

Definition browser_options : ClientOptions :=
  {| auth := {| autoRefreshToken := true; persistSession := true;
                detectSessionInUrl := true; flowType := Some "pkce" |};
     headers := [("X-Client-Info", "payeasy-web@1.0.0")];
     db_schema := None;
     cookie_methods := false |}.

Definition createBrowserClient : M World SupabaseClient :=
  supabaseUrl ← gets (fun w => env w !! "NEXT_PUBLIC_SUPABASE_URL");
  supabaseAnonKey ← gets (fun w => env w !! "NEXT_PUBLIC_SUPABASE_ANON_KEY");
  if not_ supabaseUrl || not_ supabaseAnonKey
  then throw (ErrorInstance missing_env_message)
  else sdk_construct SsrBrowserClient (default "" supabaseUrl)
         (default "" supabaseAnonKey) browser_options.

Definition getSupabaseClient : M World SupabaseClient :=
  cached ← gets clientInstance;
  match cached with
  | None =>
      c ← createBrowserClient;
      modify (set_clientInstance (Some c));;
      mret c
  | Some c => mret c
  end.

Definition resetClientInstance : M World unit :=
  modify (set_clientInstance None).

End Client.

(* ===================================================================== *)
(** * lib/supabase/server.ts                                              *)
(* ===================================================================== *)

Module Server.

Definition missing_admin_env_message : string :=
  "❌ Missing Supabase environment variables. Please set NEXT_PUBLIC_SUPABASE_URL and SUPABASE_SERVICE_ROLE_KEY".

Definition missing_env_message : string :=
  "❌ Missing Supabase environment variables. Please set NEXT_PUBLIC_SUPABASE_URL and NEXT_PUBLIC_SUPABASE_ANON_KEY".

Definition admin_options : ClientOptions :=
  {| auth := {| autoRefreshToken := false; persistSession := false;
                detectSessionInUrl := false; flowType := None |};
     headers := [("X-Client-Info", "payeasy-admin@1.0.0")];
     db_schema := Some "public";
     cookie_methods := false |}.

Definition server_options : ClientOptions :=
  {| auth := {| autoRefreshToken := true; persistSession := true;
                detectSessionInUrl := false; flowType := Some "pkce" |};
     headers := [("X-Client-Info", "payeasy-server@1.0.0")];
     db_schema := None;
     cookie_methods := true |}.

Definition createAdminClient : M World SupabaseClient :=
  supabaseUrl ← gets (fun w => env w !! "NEXT_PUBLIC_SUPABASE_URL");
  supabaseServiceKey ← gets (fun w => env w !! "SUPABASE_SERVICE_ROLE_KEY");
  if not_ supabaseUrl || not_ supabaseServiceKey
  then throw (ErrorInstance missing_admin_env_message)
  else sdk_construct SupabaseJsClient (default "" supabaseUrl)
         (default "" supabaseServiceKey) admin_options.

Definition getAdminClient : M World SupabaseClient :=
  cached ← gets adminClientInstance;
  match cached with
  | None =>
      c ← createAdminClient;
      modify (set_adminClientInstance (Some c));;
      mret c
  | Some c => mret c
  end.

Definition resetAdminClientInstance : M World unit :=
  modify (set_adminClientInstance None).

(** The [getAll] callback handed to the SDK. *)
Definition getAll : M World (list Cookie) :=
  cookieStore_getAll.

(** The [setAll] callback handed to the SDK. *)
Definition setAll (cookiesToSet : list CookieToSet) : M World unit :=
  try_catch
    (forEach
       (fun c => cookieStore_set (set_name c) (set_value c) (set_options c))
       cookiesToSet)
    (fun _error => mret tt).

(** [async function createServerClient()] *)
Definition createServerClient : M World SupabaseClient :=
  supabaseUrl ← gets (fun w => env w !! "NEXT_PUBLIC_SUPABASE_URL");
  supabaseAnonKey ← gets (fun w => env w !! "NEXT_PUBLIC_SUPABASE_ANON_KEY");
  if not_ supabaseUrl || not_ supabaseAnonKey
  then throw (ErrorInstance missing_env_message)
  else
    next_cookies;;
    sdk_construct SsrServerClient (default "" supabaseUrl)
      (default "" supabaseAnonKey) server_options.

(** [async function getCurrentUser()] *)
Definition getCurrentUser : M World (option User) :=
  supabase ← createServerClient;
  r ← await_settled AuthGetUser getUser_result;
  match resp_error r, resp_data r with
  | None, Some user => mret (Some user)
  | _, _ => mret None
  end.

(** [async function getCurrentSession()] *)
Definition getCurrentSession : M World (option Session) :=
  supabase ← createServerClient;
  r ← await_settled AuthGetSession getSession_result;
  match resp_error r, resp_data r with
  | None, Some session => mret (Some session)
  | _, _ => mret None
  end.

End Server.

(* ===================================================================== *)
(** * encodeURIComponent                                                  *)
(* ===================================================================== *)

Module Uri.

(** A string is held as its UTF-8 bytes.  [encodeURIComponent] escapes each
    byte of the UTF-8 form of its argument except the unreserved characters
    [A-Z a-z 0-9 - _ . ! ~ * ' ( )]. *)
Definition unreserved (a : ascii) : bool :=
  let n := nat_of_ascii a in
  ((65 <=? n) && (n <=? 90)) || ((97 <=? n) && (n <=? 122))
  || ((48 <=? n) && (n <=? 57))
  || existsb (Ascii.eqb a)
       ["-"; "_"; "."; "!"; "~"; "*"; "'"; "("; ")"]%char.

Definition hex_digit (n : nat) : ascii :=
  match n with
  | 0 => "0" | 1 => "1" | 2 => "2" | 3 => "3" | 4 => "4" | 5 => "5"
  | 6 => "6" | 7 => "7" | 8 => "8" | 9 => "9" | 10 => "A" | 11 => "B"
  | 12 => "C" | 13 => "D" | 14 => "E" | _ => "F"
  end%char.

(** [%XX], upper-case hexadecimal. *)
Definition escape (a : ascii) (rest : string) : string :=
  String "%"
    (String (hex_digit (nat_of_ascii a / 16))
       (String (hex_digit (nat_of_ascii a mod 16)) rest)).

Fixpoint encodeURIComponent (s : string) : string :=
  match s with
  | EmptyString => EmptyString
  | String a rest =>
      if unreserved a then String a (encodeURIComponent rest)
      else escape a (encodeURIComponent rest)
  end.

End Uri.

(* ===================================================================== *)
(** * hooks/useAuth.ts                                                    *)
(* ===================================================================== *)

Module UseAuth.

(** [AuthChangeEvent] of the SDK. *)
Inductive AuthChangeEvent : Type :=
| INITIAL_SESSION
| PASSWORD_RECOVERY
| SIGNED_IN
| SIGNED_OUT
| TOKEN_REFRESHED
| USER_UPDATED
| MFA_CHALLENGE_VERIFIED.

(** What the hook does to the outside: SDK calls and router calls. *)
Inductive Effect : Type :=
| SdkGetSession
| SdkOnAuthStateChange
| SdkUnsubscribe
| SdkSignOut
| SdkRefreshSession
| RouterPush (path : string)
| RouterRefresh.

(** The four [useState] cells, and the effects performed so far. *)
Record Hook : Type := {
  user : option User;
  session : option Session;
  loading : bool;
  error : option string;
  effects : list Effect;
}.

(** The values [useState] is initialised with. *)
Definition initial : Hook :=
  {| user := None; session := None; loading := true; error := None;
     effects := [] |}.

Definition setUser (v : option User) : M Hook unit :=
  modify (fun h => {| user := v; session := session h; loading := loading h;
                      error := error h; effects := effects h |}).

Definition setSession (v : option Session) : M Hook unit :=
  modify (fun h => {| user := user h; session := v; loading := loading h;
                      error := error h; effects := effects h |}).

Definition setLoading (v : bool) : M Hook unit :=
  modify (fun h => {| user := user h; session := session h; loading := v;
                      error := error h; effects := effects h |}).

Definition setError (v : option string) : M Hook unit :=
  modify (fun h => {| user := user h; session := session h;
                      loading := loading h; error := v;
                      effects := effects h |}).

Definition perform (e : Effect) : M Hook unit :=
  modify (fun h => {| user := user h; session := session h;
                      loading := loading h; error := error h;
                      effects := effects h ++ [e] |}).

(** [await call]: the call is made, the function is suspended while the
    rest of the event loop runs ([meanwhile]), and it resumes with the
    response or with the rejection thrown at the [await]. *)
Definition await {A} (call : Effect) (meanwhile : Hook -> Hook)
    (result : Settled A) : M Hook (Response A) :=
  perform call;;
  modify meanwhile;;
  match result with
  | Rejected v => throw v
  | Fulfilled r => mret r
  end.

(** The callback registered with [supabase.auth.onAuthStateChange]. *)
Definition onAuthStateChange_callback (event : AuthChangeEvent)
    (currentSession : option Session) : M Hook unit :=
  setSession currentSession;;
  setUser (session_user <$> currentSession);;
  setLoading false;;
  match event with
  | SIGNED_IN | SIGNED_OUT => perform RouterRefresh
  | _ => mret tt
  end.

(** The SDK delivering a list of notifications to the callback. *)
Definition deliver (ns : list (AuthChangeEvent * option Session))
  : Hook -> Hook :=
  fun h => fold_left (fun h n => snd (onAuthStateChange_callback n.1 n.2 h)) ns h.

Definition getInitialSession (result : Settled Session)
    (meanwhile : Hook -> Hook) : M Hook unit :=
  try_finally
    (try_catch
       (r ← await SdkGetSession meanwhile result;
        match resp_error r with
        | Some sessionError => setError (Some (auth_message sessionError))
        | None =>
            setSession (resp_data r);;
            setUser (session_user <$> resp_data r)
        end)
       (fun err => setError (Some (message_or "Failed to get session" err))))
    (setLoading false).

(** The body of [useEffect]: [getInitialSession()] runs up to its [await];
    the subscription is registered, the SDK delivers [ns], and then the
    session fetch settles. *)
Definition useEffect_body (result : Settled Session)
    (ns : list (AuthChangeEvent * option Session)) : M Hook unit :=
  getInitialSession result
    (fun h => deliver ns (snd (perform SdkOnAuthStateChange h))).

(** The function [useEffect] returns. *)
Definition useEffect_cleanup : M Hook unit :=
  perform SdkUnsubscribe.

Definition signOut (result : Settled unit) (meanwhile : Hook -> Hook)
  : M Hook unit :=
  try_finally
    (try_catch
       (setLoading true;;
        setError None;;
        r ← await SdkSignOut meanwhile result;
        match resp_error r with
        | Some signOutError =>
            setError (Some (auth_message signOutError));;
            throw (thrown_of_AuthError signOutError)
        | None => mret tt
        end;;
        setUser None;;
        setSession None;;
        perform (RouterPush "/");;
        perform RouterRefresh)
       (fun err =>
          setError (Some (message_or "Failed to sign out" err));;
          throw err))
    (setLoading false).

Definition refreshSession (result : Settled Session)
    (meanwhile : Hook -> Hook) : M Hook unit :=
  try_finally
    (try_catch
       (setLoading true;;
        setError None;;
        r ← await SdkRefreshSession meanwhile result;
        match resp_error r with
        | Some refreshError =>
            setError (Some (auth_message refreshError));;
            throw (thrown_of_AuthError refreshError)
        | None => mret tt
        end;;
        setSession (resp_data r);;
        setUser (session_user <$> resp_data r))
       (fun err =>
          setError (Some (message_or "Failed to refresh session" err));;
          throw err))
    (setLoading false).

(** A call of an operation failed: the SDK answered with an error, or the
    call was rejected. *)
Definition failure {A} (result : Settled A) : option thrown :=
  match result with
  | Rejected v => Some v
  | Fulfilled r => thrown_of_AuthError <$> resp_error r
  end.

(** [!!v] for an object or [null]. *)
Definition non_null {A} (v : option A) : bool :=
  match v with
  | Some _ => true
  | None => false
  end.

(** What [useIsAuthenticated] returns. *)
Record IsAuthenticated : Type := {
  isAuthenticated : bool;
  isAuthenticated_loading : bool;
}.

(** [useIsAuthenticated()] in a render that sees the hook state [h]. *)
Definition useIsAuthenticated (h : Hook) : IsAuthenticated :=
  {| isAuthenticated := non_null (user h);
     isAuthenticated_loading := loading h |}.

(** The effect of [useRequireAuth(redirectTo)], run after a render that sees
    [h], with [pathname] the value of [window.location.pathname].  An omitted
    argument is [None]. *)
Definition useRequireAuth_effect (redirectTo : option string)
    (pathname : string) : M Hook unit :=
  h ← gets id;
  if negb (loading h) && negb (non_null (user h))
  then
    let currentPath := pathname in
    let redirectUrl :=
      default "/login" redirectTo +:+ "?redirectTo="
        +:+ Uri.encodeURIComponent currentPath in
    perform (RouterPush redirectUrl)
  else mret tt.

End UseAuth.

(* ===================================================================== *)
(** * __mocks__/supabaseMock.ts                                           *)
(* ===================================================================== *)

Module SupabaseMock.

(** The five [jest.fn()] objects of [createMockSupabaseClient]. *)
Inductive MockFn : Type :=
| mockFrom
| mockInsert
| mockSelect
| mockEq
| mockOrder.

(** The values the mock deals in. *)
Inductive value : Type :=
| Undefined
| EmptyResult                                 (* { data: [], error: null } *)
| Promise (v : value)                         (* a promise resolved with v *)
| Object (fields : list (string * MockFn))    (* an object of mock functions *).

(** The state of jest: what a call of each mock function returns at
    present, and the calls recorded so far with their arguments. *)
Record Mocks : Type := {
  implementation : MockFn -> value;
  recorded : list (MockFn * list string);
}.

(** Mock functions fresh from [jest.fn()] return [undefined]. *)
Definition fresh : Mocks :=
  {| implementation := fun _ => Undefined; recorded := [] |}.

Definition MockFn_eqb (f g : MockFn) : bool :=
  match f, g with
  | mockFrom, mockFrom | mockInsert, mockInsert | mockSelect, mockSelect
  | mockEq, mockEq | mockOrder, mockOrder => true
  | _, _ => false
  end.

Definition set_implementation (f : MockFn) (v : value) (m : Mocks) : Mocks :=
  {| implementation := fun g => if MockFn_eqb g f then v else implementation m g;
     recorded := recorded m |}.

(** [f.mockReturnValue(v)]: from now on a call of [f] returns [v]; the
    method returns [f] itself. *)
Definition mockReturnValue (f : MockFn) (v : value) : M Mocks MockFn :=
  modify (set_implementation f v);;
  mret f.

(** [f.mockResolvedValue(v)]: from now on a call of [f] returns a promise
    resolved with [v]; the method returns [f] itself. *)
Definition mockResolvedValue (f : MockFn) (v : value) : M Mocks MockFn :=
  modify (set_implementation f (Promise v));;
  mret f.

(** A call [f(args)] of a mock function. *)
Definition invoke (f : MockFn) (args : list string) : M Mocks value :=
  modify (fun m => {| implementation := implementation m;
                      recorded := recorded m ++ [(f, args)] |});;
  gets (fun m => implementation m f).

Fixpoint property (fields : list (string * MockFn)) (key : string)
  : option MockFn :=
  match fields with
  | [] => None
  | (k, f) :: rest => if String.eqb k key then Some f else property rest key
  end.

(** The mock function stored under the own property [key] of [receiver],
    if there is one. *)
Definition own_method (receiver : value) (key : string) : option MockFn :=
  match receiver with
  | Object fields => property fields key
  | _ => None
  end.

(** [createMockSupabaseClient], its configuration calls in the order in
    which JavaScript evaluates the nested object literals; the result is
    [mockClient]. *)
Definition createMockSupabaseClient : M Mocks value :=
  modify (fun _ => fresh);;
  order_of_eq ← mockResolvedValue mockOrder EmptyResult;
  eq_of_select ← mockReturnValue mockEq (Object [("order", order_of_eq)]);
  order_of_select ← mockResolvedValue mockOrder EmptyResult;
  select_of_from ←
    mockReturnValue mockSelect
      (Object [("eq", eq_of_select); ("order", order_of_select)]);
  select_of_insert ← mockResolvedValue mockSelect EmptyResult;
  insert_of_from ←
    mockReturnValue mockInsert (Object [("select", select_of_insert)]);
  from ←
    mockReturnValue mockFrom
      (Object [("select", select_of_from); ("insert", insert_of_from)]);
  mret (Object [("from", from)]).

End SupabaseMock.

(** A test using the mock: it builds the client and calls a chain of methods
    [mockClient.k1(a1).k2(a2)...], each on the result of the one before.
    The chain is followed through mock functions only: it yields the last
    value reached, and [None] as soon as a key is not an own property that
    holds a mock function (what JavaScript does then, an inherited method or
    a [TypeError], is outside the model). *)
Fixpoint call_chain (receiver : SupabaseMock.value)
    (keys : list (string * list string))
  : M SupabaseMock.Mocks (option SupabaseMock.value) :=
  match keys with
  | [] => mret (Some receiver)
  | (key, args) :: rest =>
      match SupabaseMock.own_method receiver key with
      | Some f =>
          v ← SupabaseMock.invoke f args;
          call_chain v rest
      | None => mret None
      end
  end.

Definition mock_query (keys : list (string * list string))
  : M SupabaseMock.Mocks (option SupabaseMock.value) :=
  mockClient ← SupabaseMock.createMockSupabaseClient;
  call_chain mockClient keys.

(** The values a chain of calls on the mock client can pass through, the
    configuration [createMockSupabaseClient] leaves in force, and a call
    record that names neither [mockEq] nor [mockOrder]. *)
Definition mock_reachable (v : SupabaseMock.value) : Prop :=
  v = SupabaseMock.Object [("from", SupabaseMock.mockFrom)] \/
  v = SupabaseMock.Object [("select", SupabaseMock.mockSelect);
                           ("insert", SupabaseMock.mockInsert)] \/
  v = SupabaseMock.Object [("select", SupabaseMock.mockSelect)] \/
  v = SupabaseMock.Promise SupabaseMock.EmptyResult.

Definition mock_configured (m : SupabaseMock.Mocks) : Prop :=
  SupabaseMock.implementation m SupabaseMock.mockFrom =
    SupabaseMock.Object [("select", SupabaseMock.mockSelect);
                         ("insert", SupabaseMock.mockInsert)] /\
  SupabaseMock.implementation m SupabaseMock.mockInsert =
    SupabaseMock.Object [("select", SupabaseMock.mockSelect)] /\
  SupabaseMock.implementation m SupabaseMock.mockSelect =
    SupabaseMock.Promise SupabaseMock.EmptyResult.

Definition eq_and_order_uncalled (m : SupabaseMock.Mocks) : Prop :=
  forall f args,
    In (f, args) (SupabaseMock.recorded m) ->
    f <> SupabaseMock.mockEq /\ f <> SupabaseMock.mockOrder.

(** Worlds used to evaluate the accessors. *)
Definition read_only_store : CookieStore :=
  {| jar := [ {| name := "sb-access-token"; value := "abc" |} ];
     set_method := fun _ _ _ _ =>
       inl (ErrorInstance "Cookies can only be modified in a Server Action or Route Handler.") |}.

Definition writable_store : CookieStore :=
  {| jar := [ {| name := "sb-access-token"; value := "abc" |} ];
     set_method := fun nm vl _ j => inr ({| name := nm; value := vl |} :: j) |}.

Definition alice : User :=
  {| user_id := "u-1"; user_email := Some "alice@example.com" |}.

Definition alice_session : Session :=
  {| access_token := "tok-1"; session_user := alice |}.

Definition full_env : gmap string string :=
  <["NEXT_PUBLIC_SUPABASE_URL" := "https://payeasy.supabase.co"]>
  (<["NEXT_PUBLIC_SUPABASE_ANON_KEY" := "anon-key"]>
  (<["SUPABASE_SERVICE_ROLE_KEY" := "service-key"]> ∅)).

(** An SDK outside a browser that accepts every URL and key. *)
Definition accepting_sdk : Sdk :=
  {| sdk_rejects := fun _ _ _ => None; ssr_isBrowser := false;
     ssr_cachedBrowserClient := None |}.

Definition world_of (e : gmap string string) (store : CookieStore) : World :=
  {| env := e; clientInstance := None; adminClientInstance := None;
     next_oid := 0; calls := []; cookies_unavailable := None;
     cookieStore := store;
     getUser_result := Fulfilled {| resp_data := Some alice; resp_error := None |};
     getSession_result :=
       Fulfilled {| resp_data := Some alice_session; resp_error := None |};
     sdk := accepting_sdk |}.

Definition configured_world : World := world_of full_env writable_store.

(** The configured world in a browser, where @supabase/ssr keeps the client
    it builds. *)
Definition browser_world : World :=
  {| env := full_env; clientInstance := None; adminClientInstance := None;
     next_oid := 0; calls := []; cookies_unavailable := None;
     cookieStore := writable_store;
     getUser_result := getUser_result configured_world;
     getSession_result := getSession_result configured_world;
     sdk := {| sdk_rejects := fun _ _ _ => None; ssr_isBrowser := true;
               ssr_cachedBrowserClient := None |} |}.

(** The URL is set but malformed: the SDK constructors refuse it. *)
Definition malformed_url_world : World :=
  {| env := <["NEXT_PUBLIC_SUPABASE_URL" := "payeasy"]> full_env;
     clientInstance := None; adminClientInstance := None;
     next_oid := 0; calls := []; cookies_unavailable := None;
     cookieStore := writable_store;
     getUser_result := getUser_result configured_world;
     getSession_result := getSession_result configured_world;
     sdk := {| sdk_rejects := fun _ url _ =>
                 if String.eqb url "payeasy"
                 then Some (ErrorInstance "Invalid supabaseUrl")
                 else None;
               ssr_isBrowser := false;
               ssr_cachedBrowserClient := None |} |}.

(** [cookies()] is called outside a request. *)
Definition outside_request_world : World :=
  {| env := full_env; clientInstance := None; adminClientInstance := None;
     next_oid := 0; calls := [];
     cookies_unavailable := Some (ErrorInstance "outside a request scope");
     cookieStore := read_only_store;
     getUser_result := getUser_result configured_world;
     getSession_result := getSession_result configured_world;
     sdk := accepting_sdk |}.

(** The service URL is set to the empty string. *)
Definition empty_url_world : World :=
  world_of (<["NEXT_PUBLIC_SUPABASE_URL" := ""]> full_env) writable_store.

(** No variable is set at all. *)
Definition bare_world : World := world_of ∅ read_only_store.


(** Worlds whose SDK calls fail. *)
Definition jwt_expired : AuthError := {| auth_message := "JWT expired" |}.

Definition sdk_error_world : World :=
  {| env := full_env; clientInstance := None; adminClientInstance := None;
     next_oid := 0; calls := []; cookies_unavailable := None;
     cookieStore := read_only_store;
     getUser_result :=
       Fulfilled {| resp_data := None; resp_error := Some jwt_expired |};
     getSession_result :=
       Fulfilled {| resp_data := None; resp_error := Some jwt_expired |};
     sdk := accepting_sdk |}.

Definition sdk_rejecting_world : World :=
  {| env := full_env; clientInstance := None; adminClientInstance := None;
     next_oid := 0; calls := []; cookies_unavailable := None;
     cookieStore := read_only_store;
     getUser_result := Rejected (ErrorInstance "fetch failed");
     getSession_result := Rejected (ErrorInstance "fetch failed");
     sdk := accepting_sdk |}.

(** A caller of the two accessors: one call after the other, each outcome
    recorded (a caller that catches goes on with the next call). *)
Inductive Call : Type :=
| GetSupabaseClient
| ResetClientInstance
| GetAdminClient
| ResetAdminClientInstance.

Definition run_call (call : Call) : M World (option SupabaseClient) :=
  match call with
  | GetSupabaseClient => c ← Client.getSupabaseClient; mret (Some c)
  | ResetClientInstance => Client.resetClientInstance;; mret None
  | GetAdminClient => c ← Server.getAdminClient; mret (Some c)
  | ResetAdminClientInstance => Server.resetAdminClientInstance;; mret None
  end.

Fixpoint run_calls (cs : list Call) (w : World)
  : list (Call * outcome (option SupabaseClient)) * World :=
  match cs with
  | [] => ([], w)
  | call :: rest =>
      let (r, w') := run_call call w in
      let (rs, w'') := run_calls rest w' in
      ((call, r) :: rs, w'')
  end.

Definition Factory_eqb (f g : Factory) : bool :=
  match f, g with
  | SsrBrowserClient, SsrBrowserClient => true
  | SupabaseJsClient, SupabaseJsClient => true
  | SsrServerClient, SsrServerClient => true
  | _, _ => false
  end.

(** The clients a given SDK constructor has built so far. *)
Fixpoint constructed (f : Factory) (log : list ExternalCall)
  : list SupabaseClient :=
  match log with
  | [] => []
  | Construct c :: rest =>
      if Factory_eqb (factory c) f then c :: constructed f rest
      else constructed f rest
  | _ :: rest => constructed f rest
  end.

(** The clients the accessors build first in [configured_world]. *)
Definition first_browser_client : SupabaseClient :=
  {| oid := 0; factory := SsrBrowserClient;
     supabaseUrl := "https://payeasy.supabase.co"; supabaseKey := "anon-key";
     options := Client.browser_options |}.

Definition first_admin_client : SupabaseClient :=
  {| oid := 0; factory := SupabaseJsClient;
     supabaseUrl := "https://payeasy.supabase.co"; supabaseKey := "service-key";
     options := Server.admin_options |}.

(** The SDK call behind [getInitialSession]. *)
Definition is_SdkGetSession (e : UseAuth.Effect) : bool :=
  match e with
  | UseAuth.SdkGetSession => true
  | _ => false
  end.

(** How often the hook has asked the SDK for the session. *)
Definition session_fetches (h : UseAuth.Hook) : nat :=
  length (List.filter is_SdkGetSession (UseAuth.effects h)).

(** A mounted hook showing a signed-in user. *)
Definition signed_in : UseAuth.Hook :=
  {| UseAuth.user := Some alice; UseAuth.session := Some alice_session;
     UseAuth.loading := false; UseAuth.error := None;
     UseAuth.effects := [UseAuth.SdkGetSession; UseAuth.SdkOnAuthStateChange] |}.

(** A rejection with a value that is not an [Error] but has a [message]. *)
Definition network_down : thrown := NonError (Some "network down").

(** Responses of [auth.signOut()]. *)
Definition signOut_ok : Settled unit :=
  Fulfilled {| resp_data := None; resp_error := None |}.

Definition signOut_refused : Settled unit :=
  Fulfilled {| resp_data := None; resp_error := Some jwt_expired |}.

(** Settlements of the initial [auth.getSession()]. *)
Definition session_found : Settled Session :=
  Fulfilled {| resp_data := Some alice_session; resp_error := None |}.

Definition session_refused : Settled Session :=
  Fulfilled {| resp_data := None; resp_error := Some jwt_expired |}.

(** What can happen to a mounted hook, one after the other: the SDK delivers
    a notification, or the component calls [signOut] or [refreshSession],
    during whose SDK call the notifications [ns] arrive. *)
Inductive Operation : Type :=
| Notify (event : UseAuth.AuthChangeEvent) (currentSession : option Session)
| SignOut (result : Settled unit)
    (ns : list (UseAuth.AuthChangeEvent * option Session))
| RefreshSession (result : Settled Session)
    (ns : list (UseAuth.AuthChangeEvent * option Session)).

Definition run_operation (op : Operation) (h : UseAuth.Hook) : UseAuth.Hook :=
  match op with
  | Notify event currentSession =>
      (UseAuth.onAuthStateChange_callback event currentSession h).2
  | SignOut result ns => (UseAuth.signOut result (UseAuth.deliver ns) h).2
  | RefreshSession result ns =>
      (UseAuth.refreshSession result (UseAuth.deliver ns) h).2
  end.

(** The life of a mounted hook: the effect runs, the initial fetch settles,
    then the operations [ops] follow. *)
Definition hook_run (fetch : Settled Session)
    (ns : list (UseAuth.AuthChangeEvent * option Session))
    (ops : list Operation) : UseAuth.Hook :=
  fold_left (fun h op => run_operation op h) ops
    (UseAuth.useEffect_body fetch ns UseAuth.initial).2.

Definition is_SdkOnAuthStateChange (e : UseAuth.Effect) : bool :=
  match e with
  | UseAuth.SdkOnAuthStateChange => true
  | _ => false
  end.

(** How often the hook has subscribed to the SDK's notifications. *)
Definition subscriptions (h : UseAuth.Hook) : nat :=
  length (List.filter is_SdkOnAuthStateChange (UseAuth.effects h)).

(** The notifications on which the callback refreshes the router. *)
Definition is_sign_event (n : UseAuth.AuthChangeEvent * option Session) : bool :=
  match n.1 with
  | UseAuth.SIGNED_IN | UseAuth.SIGNED_OUT => true
  | _ => false
  end.

(** How many calls of a run reset the browser cache, the admin cache. *)
Fixpoint client_resets (cs : list Call) : nat :=
  match cs with
  | [] => 0
  | ResetClientInstance :: rest => S (client_resets rest)
  | _ :: rest => client_resets rest
  end.

Fixpoint admin_resets (cs : list Call) : nat :=
  match cs with
  | [] => 0
  | ResetAdminClientInstance :: rest => S (admin_resets rest)
  | _ :: rest => admin_resets rest
  end.

(** Room left in a cache: one client may be constructed into an empty
    cache, none into a filled one. *)
Definition vacancy (cache : option SupabaseClient) : nat :=
  match cache with
  | None => 1
  | Some _ => 0
  end.

(** Writing one cookie into a jar with a given [set] method; a refused
    cookie leaves the jar as it is. *)
Definition write_cookie
    (set : string -> string -> list (string * string) -> list Cookie ->
           thrown + list Cookie)
    (j : list Cookie) (c : CookieToSet) : list Cookie :=
  match set (set_name c) (set_value c) (set_options c) j with
  | inr j' => j'
  | inl _ => j
  end.

(** The event [cookieStore.set] leaves in the log for a cookie. *)
Definition set_event (c : CookieToSet) : ExternalCall :=
  CookieStoreSet (set_name c) (set_value c).

(** A variable of [process.env] is unset, or set to the empty string. *)
Definition unset_or_empty (w : World) (var : string) : Prop :=
  env w !! var = None \/ env w !! var = Some "".

(* ===================================================================== *)
(** * The embedding at work                                               *)
(* ===================================================================== *)

Example getSupabaseClient_configured :
  (Client.getSupabaseClient configured_world).1 = Return first_browser_client.
Proof. vm_compute. reflexivity. Qed.

Example getCurrentUser_configured :
  (Server.getCurrentUser configured_world).1 = Return (Some alice).
Proof. vm_compute. reflexivity. Qed.

(** During render the first [set] throws: nothing is written, the second
    cookie is never tried, and [setAll] still returns. *)
Example setAll_read_only :
  let cs := [ {| set_name := "a"; set_value := "1"; set_options := [] |};
              {| set_name := "b"; set_value := "2"; set_options := [] |} ] in
  (Server.setAll cs bare_world).1 = Return tt /\
  jar (cookieStore (Server.setAll cs bare_world).2) = jar read_only_store /\
  calls (Server.setAll cs bare_world).2 = [CookieStoreSet "a" "1"].
Proof. vm_compute. auto. Qed.

Example setAll_writable :
  let cs := [ {| set_name := "a"; set_value := "1"; set_options := [] |};
              {| set_name := "b"; set_value := "2"; set_options := [] |} ] in
  jar (cookieStore (Server.setAll cs configured_world).2) =
    [ {| name := "b"; value := "2" |}; {| name := "a"; value := "1" |};
      {| name := "sb-access-token"; value := "abc" |} ].
Proof. vm_compute. reflexivity. Qed.

(** A sign-in notification that arrives before the initial fetch settles is
    overwritten by the fetched session. *)
Example mount_then_fetch :
  UseAuth.useEffect_body session_found [(UseAuth.SIGNED_IN, None)]
    UseAuth.initial =
  (Return tt,
   {| UseAuth.user := Some alice; UseAuth.session := Some alice_session;
      UseAuth.loading := false; UseAuth.error := None;
      UseAuth.effects := [UseAuth.SdkGetSession; UseAuth.SdkOnAuthStateChange;
                          UseAuth.RouterRefresh] |}).
Proof. vm_compute. reflexivity. Qed.

(* ===================================================================== *)
(** * Properties of the client accessors                                  *)
(* ===================================================================== *)

Lemma not_unset_or_empty (w : World) (var : string) :
  unset_or_empty w var -> not_ (env w !! var) = true.
Proof. intros [H | H]; rewrite H; reflexivity. Qed.

Lemma createBrowserClient_unfold (w : World) :
  Client.createBrowserClient w =
  if not_ (env w !! "NEXT_PUBLIC_SUPABASE_URL")
     || not_ (env w !! "NEXT_PUBLIC_SUPABASE_ANON_KEY")
  then (Throw (ErrorInstance Client.missing_env_message), w)
  else sdk_construct SsrBrowserClient
         (default "" (env w !! "NEXT_PUBLIC_SUPABASE_URL"))
         (default "" (env w !! "NEXT_PUBLIC_SUPABASE_ANON_KEY"))
         Client.browser_options w.
Proof.
  unfold Client.createBrowserClient, mbind, M_bind, bind, gets. simpl.
  destruct (not_ _ || not_ _); reflexivity.
Qed.

Lemma createAdminClient_unfold (w : World) :
  Server.createAdminClient w =
  if not_ (env w !! "NEXT_PUBLIC_SUPABASE_URL")
     || not_ (env w !! "SUPABASE_SERVICE_ROLE_KEY")
  then (Throw (ErrorInstance Server.missing_admin_env_message), w)
  else sdk_construct SupabaseJsClient
         (default "" (env w !! "NEXT_PUBLIC_SUPABASE_URL"))
         (default "" (env w !! "SUPABASE_SERVICE_ROLE_KEY"))
         Server.admin_options w.
Proof.
  unfold Server.createAdminClient, mbind, M_bind, bind, gets. simpl.
  destruct (not_ _ || not_ _); reflexivity.
Qed.

Lemma createServerClient_unfold (w : World) :
  Server.createServerClient w =
  if not_ (env w !! "NEXT_PUBLIC_SUPABASE_URL")
     || not_ (env w !! "NEXT_PUBLIC_SUPABASE_ANON_KEY")
  then (Throw (ErrorInstance Server.missing_env_message), w)
  else match cookies_unavailable w with
       | Some v => (Throw v, log_call NextCookies w)
       | None =>
           sdk_construct SsrServerClient
             (default "" (env w !! "NEXT_PUBLIC_SUPABASE_URL"))
             (default "" (env w !! "NEXT_PUBLIC_SUPABASE_ANON_KEY"))
             Server.server_options (log_call NextCookies w)
       end.
Proof.
  unfold Server.createServerClient, next_cookies, mbind, M_bind, bind, gets,
    modify, throw, mret, M_ret, ret.
  simpl. destruct (not_ _ || not_ _); [reflexivity |].
  destruct (cookies_unavailable w); reflexivity.
Qed.

Lemma sdk_construct_unfold f url key opts (w : World) :
  sdk_construct f url key opts w =
  match sdk_decides (sdk w) f url key with
  | Refuses v => (Throw v, log_call (ConstructThrew f url key) w)
  | Reuses n =>
      let c := {| oid := n; factory := f; supabaseUrl := url;
                  supabaseKey := key; options := opts |} in
      (Return c, log_call (Construct c) w)
  | Allocates =>
      let c := {| oid := next_oid w; factory := f; supabaseUrl := url;
                  supabaseKey := key; options := opts |} in
      (Return c,
       keep_browser_client f (next_oid w)
         (log_call (Construct c) (bump_oid w)))
  end.
Proof.
  unfold sdk_construct, mbind, M_bind, bind, gets. simpl.
  destruct (sdk_decides (sdk w) f url key); reflexivity.
Qed.

(** Outside [createBrowserClient] of @supabase/ssr a constructor checks its
    arguments and allocates. *)
Lemma sdk_decides_allocating (s : Sdk) (f : Factory) (url key : string) :
  is_SsrBrowserClient f && ssr_isBrowser s = false ->
  sdk_decides s f url key =
  match sdk_rejects s f url key with
  | Some v => Refuses v
  | None => Allocates
  end.
Proof. intros H. unfold sdk_decides. rewrite H. reflexivity. Qed.

Ltac sdk_cases :=
  rewrite sdk_construct_unfold;
  destruct (sdk_decides _ _ _ _) eqn:?; simpl.

(** C1. Whenever the service URL or the key variable a constructor needs is
    unset or empty, the constructor throws the configuration error, and the
    world is left as it was: nothing was logged, so the [throw] is reached
    before any call into the SDK or the framework (for the [async]
    [createServerClient], before its first [await]).  This holds for
    [createBrowserClient], [createAdminClient] and [createServerClient]. *)
Theorem C1_missing_configuration_throws (w : World) :
  (unset_or_empty w "NEXT_PUBLIC_SUPABASE_URL" \/
   unset_or_empty w "NEXT_PUBLIC_SUPABASE_ANON_KEY" ->
   Client.createBrowserClient w =
     (Throw (ErrorInstance Client.missing_env_message), w)) /\
  (unset_or_empty w "NEXT_PUBLIC_SUPABASE_URL" \/
   unset_or_empty w "SUPABASE_SERVICE_ROLE_KEY" ->
   Server.createAdminClient w =
     (Throw (ErrorInstance Server.missing_admin_env_message), w)) /\
  (unset_or_empty w "NEXT_PUBLIC_SUPABASE_URL" \/
   unset_or_empty w "NEXT_PUBLIC_SUPABASE_ANON_KEY" ->
   Server.createServerClient w =
     (Throw (ErrorInstance Server.missing_env_message), w)).
Proof.
  repeat split; intros [H | H]; apply not_unset_or_empty in H.
  - rewrite createBrowserClient_unfold, H. reflexivity.
  - rewrite createBrowserClient_unfold, H, orb_true_r. reflexivity.
  - rewrite createAdminClient_unfold, H. reflexivity.
  - rewrite createAdminClient_unfold, H, orb_true_r. reflexivity.
  - rewrite createServerClient_unfold, H. reflexivity.
  - rewrite createServerClient_unfold, H, orb_true_r. reflexivity.
Qed.

Lemma C1_witness :
  Client.createBrowserClient empty_url_world =
    (Throw (ErrorInstance Client.missing_env_message), empty_url_world) /\
  Server.createAdminClient bare_world =
    (Throw (ErrorInstance Server.missing_admin_env_message), bare_world) /\
  Server.createServerClient bare_world =
    (Throw (ErrorInstance Server.missing_env_message), bare_world).
Proof.
  split; [| split].
  - apply (C1_missing_configuration_throws empty_url_world).
    left. right. reflexivity.
  - apply (C1_missing_configuration_throws bare_world).
    right. left. reflexivity.
  - apply (C1_missing_configuration_throws bare_world).
    left. left. reflexivity.
Defined.

Lemma getSupabaseClient_unfold (w : World) :
  Client.getSupabaseClient w =
  match clientInstance w with
  | Some c => (Return c, w)
  | None =>
      match Client.createBrowserClient w with
      | (Return c, w') => (Return c, set_clientInstance (Some c) w')
      | (Throw v, w') => (Throw v, w')
      end
  end.
Proof.
  unfold Client.getSupabaseClient, mbind, M_bind, bind, gets. simpl.
  destruct (clientInstance w); [reflexivity |].
  destruct (Client.createBrowserClient w) as [[c | v] w']; reflexivity.
Qed.

Lemma getAdminClient_unfold (w : World) :
  Server.getAdminClient w =
  match adminClientInstance w with
  | Some c => (Return c, w)
  | None =>
      match Server.createAdminClient w with
      | (Return c, w') => (Return c, set_adminClientInstance (Some c) w')
      | (Throw v, w') => (Throw v, w')
      end
  end.
Proof.
  unfold Server.getAdminClient, mbind, M_bind, bind, gets. simpl.
  destruct (adminClientInstance w); [reflexivity |].
  destruct (Server.createAdminClient w) as [[c | v] w']; reflexivity.
Qed.

Lemma constructed_app f l1 l2 :
  constructed f (l1 ++ l2) = constructed f l1 ++ constructed f l2.
Proof.
  induction l1 as [| e l1 IH]; simpl; [reflexivity |].
  destruct e; try assumption.
  destruct (Factory_eqb (factory c) f); simpl; congruence.
Qed.

(** What one call may change: never the environment, never an allocated
    identity; the browser cache only through the browser accessor, the admin
    cache only through the admin accessor. *)
Lemma run_call_frame (call : Call) (w : World) :
  env (run_call call w).2 = env w /\
  next_oid w <= next_oid (run_call call w).2.
Proof.
  destruct call; unfold run_call, mbind, M_bind, bind; simpl.
  - rewrite getSupabaseClient_unfold.
    destruct (clientInstance w); simpl; [split; [reflexivity | lia] |].
    rewrite createBrowserClient_unfold.
    destruct (not_ _ || not_ _); simpl; [split; (reflexivity || lia) |].
    sdk_cases; split; (reflexivity || lia).
  - split; [reflexivity | lia].
  - rewrite getAdminClient_unfold.
    destruct (adminClientInstance w); simpl; [split; [reflexivity | lia] |].
    rewrite createAdminClient_unfold.
    destruct (not_ _ || not_ _); simpl; [split; (reflexivity || lia) |].
    sdk_cases; split; (reflexivity || lia).
  - split; [reflexivity | lia].
Qed.

Lemma run_call_browser_cached (call : Call) (w : World) (c : SupabaseClient) :
  clientInstance w = Some c ->
  call <> ResetClientInstance ->
  clientInstance (run_call call w).2 = Some c /\
  constructed SsrBrowserClient (calls (run_call call w).2) =
    constructed SsrBrowserClient (calls w) /\
  (call = GetSupabaseClient -> (run_call call w).1 = Return (Some c)).
Proof.
  intros Hc Hne.
  destruct call; unfold run_call, mbind, M_bind, bind; simpl.
  - rewrite getSupabaseClient_unfold, Hc. simpl. auto.
  - congruence.
  - rewrite getAdminClient_unfold.
    destruct (adminClientInstance w); simpl;
      [split; [assumption | split; [reflexivity | discriminate]] |].
    rewrite createAdminClient_unfold.
    destruct (not_ _ || not_ _); simpl;
      [split; [assumption | split; [reflexivity | discriminate]] |].
    sdk_cases; (split; [assumption | split; [| discriminate]]);
      rewrite constructed_app; simpl; apply app_nil_r.
  - split; [assumption | split; [reflexivity | discriminate]].
Qed.

Lemma run_call_admin_cached (call : Call) (w : World) (c : SupabaseClient) :
  adminClientInstance w = Some c ->
  call <> ResetAdminClientInstance ->
  adminClientInstance (run_call call w).2 = Some c /\
  constructed SupabaseJsClient (calls (run_call call w).2) =
    constructed SupabaseJsClient (calls w) /\
  (call = GetAdminClient -> (run_call call w).1 = Return (Some c)).
Proof.
  intros Hc Hne.
  destruct call; unfold run_call, mbind, M_bind, bind; simpl.
  - rewrite getSupabaseClient_unfold.
    destruct (clientInstance w); simpl;
      [split; [assumption | split; [reflexivity | discriminate]] |].
    rewrite createBrowserClient_unfold.
    destruct (not_ _ || not_ _); simpl;
      [split; [assumption | split; [reflexivity | discriminate]] |].
    sdk_cases; (split; [assumption | split; [| discriminate]]);
      rewrite constructed_app; simpl; apply app_nil_r.
  - split; [assumption | split; [reflexivity | discriminate]].
  - rewrite getAdminClient_unfold, Hc. simpl. auto.
  - congruence.
Qed.

Lemma run_calls_cons (call : Call) (rest : list Call) (w : World) :
  run_calls (call :: rest) w =
  (((call, (run_call call w).1) :: (run_calls rest (run_call call w).2).1),
   (run_calls rest (run_call call w).2).2).
Proof.
  simpl. destruct (run_call call w) as [r w']. simpl.
  destruct (run_calls rest w') as [rs w'']. reflexivity.
Qed.

Lemma run_calls_frame (cs : list Call) (w : World) :
  env (run_calls cs w).2 = env w /\
  next_oid w <= next_oid (run_calls cs w).2.
Proof.
  revert w. induction cs as [| call rest IH]; intros w.
  - simpl. split; [reflexivity | lia].
  - rewrite run_calls_cons. simpl.
    destruct (run_call_frame call w) as [He Hn].
    destruct (IH (run_call call w).2) as [He' Hn'].
    split; [congruence | lia].
Qed.

(** Once the browser cache holds [c], a run without [resetClientInstance]
    hands [c] to every [getSupabaseClient] and constructs no browser
    client. *)
Lemma run_calls_browser_cached (cs : list Call) (w : World) (c : SupabaseClient) :
  clientInstance w = Some c ->
  ResetClientInstance ∉ cs ->
  Forall (fun p => p.1 = GetSupabaseClient -> p.2 = Return (Some c))
         (run_calls cs w).1 /\
  clientInstance (run_calls cs w).2 = Some c /\
  constructed SsrBrowserClient (calls (run_calls cs w).2) =
    constructed SsrBrowserClient (calls w).
Proof.
  revert w. induction cs as [| call rest IH]; intros w Hc Hno.
  - simpl. auto.
  - rewrite run_calls_cons. simpl.
    apply not_elem_of_cons in Hno as [Hne Hno].
    destruct (run_call_browser_cached call w c Hc) as (Hc' & Hk & Hr);
      [congruence |].
    destruct (IH _ Hc' Hno) as (Hall & Hfin & Hks).
    split; [| split; [assumption | congruence]].
    constructor; assumption.
Qed.

Lemma run_calls_admin_cached (cs : list Call) (w : World) (c : SupabaseClient) :
  adminClientInstance w = Some c ->
  ResetAdminClientInstance ∉ cs ->
  Forall (fun p => p.1 = GetAdminClient -> p.2 = Return (Some c))
         (run_calls cs w).1 /\
  adminClientInstance (run_calls cs w).2 = Some c /\
  constructed SupabaseJsClient (calls (run_calls cs w).2) =
    constructed SupabaseJsClient (calls w).
Proof.
  revert w. induction cs as [| call rest IH]; intros w Hc Hno.
  - simpl. auto.
  - rewrite run_calls_cons. simpl.
    apply not_elem_of_cons in Hno as [Hne Hno].
    destruct (run_call_admin_cached call w c Hc) as (Hc' & Hk & Hr);
      [congruence |].
    destruct (IH _ Hc' Hno) as (Hall & Hfin & Hks).
    split; [| split; [assumption | congruence]].
    constructor; assumption.
Qed.

(** What one call may change of the SDK: never what it accepts, never
    whether it runs in a browser; and in a browser the client that
    @supabase/ssr keeps, once kept, stays. *)
Lemma run_call_sdk (call : Call) (w : World) :
  sdk_rejects (sdk (run_call call w).2) = sdk_rejects (sdk w) /\
  ssr_isBrowser (sdk (run_call call w).2) = ssr_isBrowser (sdk w) /\
  (forall n, ssr_isBrowser (sdk w) = true ->
             ssr_cachedBrowserClient (sdk w) = Some n ->
             ssr_cachedBrowserClient (sdk (run_call call w).2) = Some n).
Proof.
  destruct call; unfold run_call, mbind, M_bind, bind; simpl; auto.
  - rewrite getSupabaseClient_unfold.
    destruct (clientInstance w); simpl; [auto |].
    rewrite createBrowserClient_unfold.
    destruct (not_ _ || not_ _); simpl; [auto |].
    rewrite sdk_construct_unfold.
    destruct (sdk_decides _ _ _ _) eqn:Hd; simpl; auto.
    split; [reflexivity | split; [reflexivity |]].
    intros n Hb Hn. unfold sdk_decides in Hd. rewrite Hb, Hn in Hd.
    discriminate Hd.
  - rewrite getAdminClient_unfold.
    destruct (adminClientInstance w); simpl; [auto |].
    rewrite createAdminClient_unfold.
    destruct (not_ _ || not_ _); simpl; [auto |].
    sdk_cases; auto.
Qed.

Lemma run_calls_sdk (cs : list Call) (w : World) :
  sdk_rejects (sdk (run_calls cs w).2) = sdk_rejects (sdk w) /\
  ssr_isBrowser (sdk (run_calls cs w).2) = ssr_isBrowser (sdk w) /\
  (forall n, ssr_isBrowser (sdk w) = true ->
             ssr_cachedBrowserClient (sdk w) = Some n ->
             ssr_cachedBrowserClient (sdk (run_calls cs w).2) = Some n).
Proof.
  revert w. induction cs as [| call rest IH]; intros w; [simpl; auto |].
  rewrite run_calls_cons. simpl.
  destruct (run_call_sdk call w) as (Hr & Hb & Hk).
  destruct (IH (run_call call w).2) as (Hr' & Hb' & Hk').
  split; [congruence | split; [congruence |]].
  intros n Hbw Hn. apply Hk'; [congruence | apply Hk; assumption].
Qed.

(** A call of [getSupabaseClient] on an empty cache that returns has read a
    complete configuration, has called the SDK constructor with it and has
    cached what that returned. *)
Lemma getSupabaseClient_first (w0 w : World) (c : SupabaseClient) :
  clientInstance w0 = None ->
  Client.getSupabaseClient w0 = (Return c, w) ->
  not_ (env w0 !! "NEXT_PUBLIC_SUPABASE_URL")
    || not_ (env w0 !! "NEXT_PUBLIC_SUPABASE_ANON_KEY") = false /\
  clientInstance w = Some c /\
  calls w = calls w0 ++ [Construct c] /\
  factory c = SsrBrowserClient /\
  env w = env w0 /\
  sdk_rejects (sdk w) = sdk_rejects (sdk w0) /\
  ssr_isBrowser (sdk w) = ssr_isBrowser (sdk w0) /\
  (ssr_isBrowser (sdk w0) = true ->
   ssr_cachedBrowserClient (sdk w) = Some (oid c)) /\
  (ssr_isBrowser (sdk w0) = false ->
   oid c < next_oid w /\
   sdk_rejects (sdk w0) SsrBrowserClient
     (default "" (env w0 !! "NEXT_PUBLIC_SUPABASE_URL"))
     (default "" (env w0 !! "NEXT_PUBLIC_SUPABASE_ANON_KEY")) = None).
Proof.
  intros Hnone Hget.
  rewrite getSupabaseClient_unfold, Hnone, createBrowserClient_unfold in Hget.
  destruct (not_ _ || not_ _); [discriminate |].
  rewrite sdk_construct_unfold in Hget.
  destruct (sdk_decides _ _ _ _) eqn:Hd; simpl in Hget;
    [discriminate | |]; injection Hget as <- <-; simpl;
    unfold sdk_decides in Hd; simpl in Hd;
    destruct (ssr_isBrowser (sdk w0)) eqn:Hb;
    destruct (ssr_cachedBrowserClient (sdk w0)) eqn:Hk;
    destruct (sdk_rejects (sdk w0) SsrBrowserClient _ _) eqn:Hr;
    try discriminate Hd; try (injection Hd as <-);
    repeat (split; [reflexivity |]);
    (split; [intros; (reflexivity || congruence || discriminate) |]);
    intros; try discriminate; split; (lia || reflexivity || assumption).
Qed.

Lemma getAdminClient_first (w0 w : World) (c : SupabaseClient) :
  adminClientInstance w0 = None ->
  Server.getAdminClient w0 = (Return c, w) ->
  not_ (env w0 !! "NEXT_PUBLIC_SUPABASE_URL")
    || not_ (env w0 !! "SUPABASE_SERVICE_ROLE_KEY") = false /\
  adminClientInstance w = Some c /\
  calls w = calls w0 ++ [Construct c] /\
  factory c = SupabaseJsClient /\
  env w = env w0 /\
  sdk_rejects (sdk w) = sdk_rejects (sdk w0) /\
  oid c < next_oid w /\
  sdk_rejects (sdk w0) SupabaseJsClient
    (default "" (env w0 !! "NEXT_PUBLIC_SUPABASE_URL"))
    (default "" (env w0 !! "SUPABASE_SERVICE_ROLE_KEY")) = None.
Proof.
  intros Hnone Hget.
  rewrite getAdminClient_unfold, Hnone, createAdminClient_unfold in Hget.
  destruct (not_ _ || not_ _); [discriminate |].
  rewrite sdk_construct_unfold in Hget.
  unfold sdk_decides in Hget. simpl in Hget.
  destruct (sdk_rejects (sdk w0) SupabaseJsClient _ _) eqn:Hr;
    simpl in Hget; [discriminate |].
  injection Hget as <- <-. simpl.
  repeat (split; [reflexivity |]). split; [lia | reflexivity].
Qed.

(** C2, as the specification states it, fails in a browser: there
    [createBrowserClient] of @supabase/ssr returns the client it has kept,
    so the [getSupabaseClient] that follows [resetClientInstance] calls the
    constructor again but gets, caches and returns the very object the first
    call returned, not a new instance. *)
Lemma C2_counterexample :
  (Client.getSupabaseClient browser_world).1 = Return first_browser_client /\
  (Client.getSupabaseClient
     (Client.resetClientInstance
        (Client.getSupabaseClient browser_world).2).2).1 =
    Return first_browser_client /\
  constructed SsrBrowserClient
    (calls (Client.getSupabaseClient
              (Client.resetClientInstance
                 (Client.getSupabaseClient browser_world).2).2).2) =
    [first_browser_client; first_browser_client].
Proof. repeat split; vm_compute; reflexivity. Qed.

(** C2, amended. Let the first [getSupabaseClient] find the cache empty and
    return [c].  Then in every further run of accessor calls that contains
    no [resetClientInstance], each [getSupabaseClient] returns that very
    [c], the cache still holds [c], and the SDK constructor has been called
    for a browser client that one time only.  After [resetClientInstance]
    the next [getSupabaseClient] calls the SDK constructor once more and
    caches and returns what that call returns: in a browser, where
    @supabase/ssr keeps its client, the same object as [c]; elsewhere an
    object other than [c].  The same holds of [getAdminClient] and
    [resetAdminClientInstance], whose constructor always returns an object
    other than [c]. *)
Theorem C2_singleton_accessors
    (w0 w : World) (c : SupabaseClient) (cs : list Call) :
  (clientInstance w0 = None ->
   Client.getSupabaseClient w0 = (Return c, w) ->
   ResetClientInstance ∉ cs ->
   Forall (fun p => p.1 = GetSupabaseClient -> p.2 = Return (Some c))
          (run_calls cs w).1 /\
   clientInstance (run_calls cs w).2 = Some c /\
   constructed SsrBrowserClient (calls (run_calls cs w).2) =
     constructed SsrBrowserClient (calls w0) ++ [c] /\
   exists c' w',
     Client.getSupabaseClient
       (Client.resetClientInstance (run_calls cs w).2).2 = (Return c', w') /\
     calls w' = calls (run_calls cs w).2 ++ [Construct c'] /\
     clientInstance w' = Some c' /\
     (ssr_isBrowser (sdk w0) = true -> oid c' = oid c) /\
     (ssr_isBrowser (sdk w0) = false -> oid c' <> oid c)) /\
  (adminClientInstance w0 = None ->
   Server.getAdminClient w0 = (Return c, w) ->
   ResetAdminClientInstance ∉ cs ->
   Forall (fun p => p.1 = GetAdminClient -> p.2 = Return (Some c))
          (run_calls cs w).1 /\
   adminClientInstance (run_calls cs w).2 = Some c /\
   constructed SupabaseJsClient (calls (run_calls cs w).2) =
     constructed SupabaseJsClient (calls w0) ++ [c] /\
   exists c' w',
     Server.getAdminClient
       (Server.resetAdminClientInstance (run_calls cs w).2).2 = (Return c', w') /\
     calls w' = calls (run_calls cs w).2 ++ [Construct c'] /\
     adminClientInstance w' = Some c' /\
     oid c' <> oid c).
Proof.
  split; intros Hnone Hget Hno.
  - destruct (getSupabaseClient_first _ _ _ Hnone Hget)
      as (Henv & Hc & Hlog & Hf & He0 & Hrej0 & Hbr0 & Hkept & Hfresh).
    destruct (run_calls_browser_cached cs w c Hc Hno) as (Hall & Hfin & Hks).
    destruct (run_calls_frame cs w) as [He Hn].
    destruct (run_calls_sdk cs w) as (Hrej & Hbr & Hkeep).
    split; [assumption | split; [assumption | split]].
    + rewrite Hks, Hlog, constructed_app. simpl. rewrite Hf. reflexivity.
    + set (wn := (run_calls cs w).2) in *.
      rewrite getSupabaseClient_unfold. simpl.
      rewrite createBrowserClient_unfold. simpl.
      rewrite He, He0, Henv, sdk_construct_unfold. simpl.
      destruct (ssr_isBrowser (sdk w0)) eqn:Hb.
      * assert (Hk : ssr_cachedBrowserClient (sdk wn) = Some (oid c))
          by (apply Hkeep; [congruence | apply Hkept; reflexivity]).
        unfold sdk_decides. simpl. rewrite Hbr, Hbr0, Hk.
        eexists. eexists. split; [reflexivity |]. simpl.
        split; [reflexivity |]. split; [reflexivity |].
        split; [reflexivity | discriminate].
      * destruct (Hfresh eq_refl) as [Hlt Hok].
        rewrite sdk_decides_allocating
          by (simpl; rewrite Hbr, Hbr0; reflexivity).
        rewrite Hrej, Hrej0, Hok.
        eexists. eexists. split; [reflexivity |]. simpl.
        split; [reflexivity |]. split; [reflexivity |].
        split; [discriminate | intros _; lia].
  - destruct (getAdminClient_first _ _ _ Hnone Hget)
      as (Henv & Hc & Hlog & Hf & He0 & Hrej0 & Hlt & Hok).
    destruct (run_calls_admin_cached cs w c Hc Hno) as (Hall & Hfin & Hks).
    destruct (run_calls_frame cs w) as [He Hn].
    destruct (run_calls_sdk cs w) as (Hrej & _ & _).
    split; [assumption | split; [assumption | split]].
    + rewrite Hks, Hlog, constructed_app. simpl. rewrite Hf. reflexivity.
    + set (wn := (run_calls cs w).2) in *.
      rewrite getAdminClient_unfold. simpl.
      rewrite createAdminClient_unfold. simpl.
      rewrite He, He0, Henv, sdk_construct_unfold. simpl.
      rewrite sdk_decides_allocating by reflexivity.
      rewrite Hrej, Hrej0, Hok.
      eexists. eexists. split; [reflexivity |]. simpl.
      split; [reflexivity |]. split; [reflexivity |]. lia.
Qed.

Lemma C2_witness :
  (clientInstance configured_world = None /\
   (ResetClientInstance ∉ [GetSupabaseClient; GetAdminClient; GetSupabaseClient]) /\
   clientInstance
     (run_calls [GetSupabaseClient; GetAdminClient; GetSupabaseClient]
        (Client.getSupabaseClient configured_world).2).2 =
     Some first_browser_client) /\
  (adminClientInstance configured_world = None /\
   (ResetAdminClientInstance ∉ [GetAdminClient; ResetClientInstance; GetAdminClient]) /\
   adminClientInstance
     (run_calls [GetAdminClient; ResetClientInstance; GetAdminClient]
        (Server.getAdminClient configured_world).2).2 =
     Some first_admin_client).
Proof.
  split.
  - assert (Hno : ResetClientInstance ∉
                  [GetSupabaseClient; GetAdminClient; GetSupabaseClient]).
    { intros Hin. repeat (apply elem_of_cons in Hin as [Hin | Hin];
                          [discriminate |]).
      inversion Hin. }
    split; [reflexivity | split; [exact Hno |]].
    apply (C2_singleton_accessors configured_world
             (Client.getSupabaseClient configured_world).2
             first_browser_client
             [GetSupabaseClient; GetAdminClient; GetSupabaseClient]).
    + reflexivity.
    + vm_compute. reflexivity.
    + exact Hno.
  - assert (Hno : ResetAdminClientInstance ∉
                  [GetAdminClient; ResetClientInstance; GetAdminClient]).
    { intros Hin. repeat (apply elem_of_cons in Hin as [Hin | Hin];
                          [discriminate |]).
      inversion Hin. }
    split; [reflexivity | split; [exact Hno |]].
    apply (C2_singleton_accessors configured_world
             (Server.getAdminClient configured_world).2
             first_admin_client
             [GetAdminClient; ResetClientInstance; GetAdminClient]).
    + reflexivity.
    + vm_compute. reflexivity.
    + exact Hno.
Defined.

(** C7. Whatever the world, a client [createAdminClient] returns was built
    with [persistSession] and [autoRefreshToken] switched off, and a client
    [createServerClient] returns was built with both switched on: each
    constructor passes a constant options object. *)
Theorem C7_fixed_auth_options (w w' : World) (c : SupabaseClient) :
  (Server.createAdminClient w = (Return c, w') ->
   options c = Server.admin_options /\
   persistSession (auth (options c)) = false /\
   autoRefreshToken (auth (options c)) = false) /\
  (Server.createServerClient w = (Return c, w') ->
   options c = Server.server_options /\
   persistSession (auth (options c)) = true /\
   autoRefreshToken (auth (options c)) = true).
Proof.
  split; intros H.
  - rewrite createAdminClient_unfold in H.
    destruct (not_ _ || not_ _); [discriminate |].
    rewrite sdk_construct_unfold in H.
    destruct (sdk_decides _ _ _ _); simpl in H; [discriminate | |];
      injection H as Hc _; subst c; simpl; auto.
  - rewrite createServerClient_unfold in H.
    destruct (not_ _ || not_ _); [discriminate |].
    destruct (cookies_unavailable w); [discriminate |].
    rewrite sdk_construct_unfold in H.
    destruct (sdk_decides _ _ _ _); simpl in H; [discriminate | |];
      injection H as Hc _; subst c; simpl; auto.
Qed.

Lemma C7_witness :
  (persistSession (auth (options (first_admin_client))) = false /\
   autoRefreshToken (auth (options (first_admin_client))) = false) /\
  (exists c, (Server.createServerClient configured_world).1 = Return c /\
             persistSession (auth (options c)) = true /\
             autoRefreshToken (auth (options c)) = true).
Proof.
  split.
  - apply (C7_fixed_auth_options configured_world
             (Server.createAdminClient configured_world).2
             first_admin_client).
    vm_compute. reflexivity.
  - exists {| oid := 0; factory := SsrServerClient;
              supabaseUrl := "https://payeasy.supabase.co";
              supabaseKey := "anon-key";
              options := Server.server_options |}.
    split; [vm_compute; reflexivity |].
    apply (C7_fixed_auth_options configured_world
             (Server.createServerClient configured_world).2).
    vm_compute. reflexivity.
Defined.

(** C8. The [setAll] callback returns normally on every list of cookies and
    every cookie store, whatever [cookieStore.set] throws; the [getAll]
    callback returns the content of the request's cookie store as
    [cookieStore.getAll()] gives it and changes nothing in the store. *)
Theorem C8_cookie_callbacks_total (w : World) (cookiesToSet : list CookieToSet) :
  (exists w', Server.setAll cookiesToSet w = (Return tt, w')) /\
  Server.getAll w = (Return (jar (cookieStore w)), log_call CookieStoreGetAll w) /\
  cookieStore (Server.getAll w).2 = cookieStore w.
Proof.
  split; [| split; reflexivity].
  unfold Server.setAll, try_catch.
  destruct (forEach _ cookiesToSet w) as [[[] | v] w'].
  - exists w'. reflexivity.
  - exists w'. reflexivity.
Qed.

(* ===================================================================== *)
(** * Properties of the server helpers                                    *)
(* ===================================================================== *)

(** Constructing the cookie-scoped client does not change what the SDK will
    answer. *)
Lemma createServerClient_results (w : World) :
  getUser_result (Server.createServerClient w).2 = getUser_result w /\
  getSession_result (Server.createServerClient w).2 = getSession_result w.
Proof.
  rewrite createServerClient_unfold.
  destruct (not_ _ || not_ _); [split; reflexivity |].
  destruct (cookies_unavailable w); [split; reflexivity |].
  sdk_cases; split; reflexivity.
Qed.

Lemma getCurrentUser_unfold (w : World) :
  Server.getCurrentUser w =
  match Server.createServerClient w with
  | (Throw v, w1) => (Throw v, w1)
  | (Return _, w1) =>
      match getUser_result w1 with
      | Rejected v => (Throw v, log_call AuthGetUser w1)
      | Fulfilled r =>
          (Return (match resp_error r, resp_data r with
                   | None, Some user => Some user
                   | _, _ => None
                   end),
           log_call AuthGetUser w1)
      end
  end.
Proof.
  unfold Server.getCurrentUser, await_settled, mbind, M_bind, bind, gets,
    modify, throw, mret, M_ret, ret.
  destruct (Server.createServerClient w) as [[c | v] w1]; [| reflexivity].
  simpl. destruct (getUser_result w1) as [r | v]; [| reflexivity].
  destruct (resp_error r), (resp_data r); reflexivity.
Qed.

Lemma getCurrentSession_unfold (w : World) :
  Server.getCurrentSession w =
  match Server.createServerClient w with
  | (Throw v, w1) => (Throw v, w1)
  | (Return _, w1) =>
      match getSession_result w1 with
      | Rejected v => (Throw v, log_call AuthGetSession w1)
      | Fulfilled r =>
          (Return (match resp_error r, resp_data r with
                   | None, Some session => Some session
                   | _, _ => None
                   end),
           log_call AuthGetSession w1)
      end
  end.
Proof.
  unfold Server.getCurrentSession, await_settled, mbind, M_bind, bind, gets,
    modify, throw, mret, M_ret, ret.
  destruct (Server.createServerClient w) as [[c | v] w1]; [| reflexivity].
  simpl. destruct (getSession_result w1) as [r | v]; [| reflexivity].
  destruct (resp_error r), (resp_data r); reflexivity.
Qed.

(** C3, as the specification states it, fails: with no configuration in the
    environment both helpers end in the configuration error instead of
    returning null. *)
Lemma C3_counterexample :
  Server.getCurrentUser bare_world =
    (Throw (ErrorInstance Server.missing_env_message), bare_world) /\
  Server.getCurrentSession bare_world =
    (Throw (ErrorInstance Server.missing_env_message), bare_world).
Proof. split; vm_compute; reflexivity. Qed.

(** C3, amended. An error the SDK reports in the [error] field of its
    response makes [getCurrentUser] and [getCurrentSession] return null.
    An error thrown while the cookie-scoped client is constructed, and a
    rejection of the SDK call itself, are not caught: the helper ends in
    that same error. *)
Theorem C3_helpers_null_on_reported_error (w : World) :
  (forall c w1 r e,
      Server.createServerClient w = (Return c, w1) ->
      getUser_result w = Fulfilled r -> resp_error r = Some e ->
      Server.getCurrentUser w = (Return None, log_call AuthGetUser w1)) /\
  (forall c w1 r e,
      Server.createServerClient w = (Return c, w1) ->
      getSession_result w = Fulfilled r -> resp_error r = Some e ->
      Server.getCurrentSession w = (Return None, log_call AuthGetSession w1)) /\
  (forall v w1,
      Server.createServerClient w = (Throw v, w1) ->
      Server.getCurrentUser w = (Throw v, w1) /\
      Server.getCurrentSession w = (Throw v, w1)) /\
  (forall c w1 v,
      Server.createServerClient w = (Return c, w1) ->
      getUser_result w = Rejected v ->
      Server.getCurrentUser w = (Throw v, log_call AuthGetUser w1)) /\
  (forall c w1 v,
      Server.createServerClient w = (Return c, w1) ->
      getSession_result w = Rejected v ->
      Server.getCurrentSession w = (Throw v, log_call AuthGetSession w1)).
Proof.
  destruct (createServerClient_results w) as [Hu Hs].
  repeat split.
  - intros c w1 r e Hc Hr He.
    rewrite getCurrentUser_unfold. rewrite Hc in *. simpl in Hu.
    rewrite Hu, Hr, He. reflexivity.
  - intros c w1 r e Hc Hr He.
    rewrite getCurrentSession_unfold. rewrite Hc in *. simpl in Hs.
    rewrite Hs, Hr, He. reflexivity.
  - rewrite getCurrentUser_unfold, H. reflexivity.
  - rewrite getCurrentSession_unfold, H. reflexivity.
  - intros c w1 v Hc Hr.
    rewrite getCurrentUser_unfold. rewrite Hc in *. simpl in Hu.
    rewrite Hu, Hr. reflexivity.
  - intros c w1 v Hc Hr.
    rewrite getCurrentSession_unfold. rewrite Hc in *. simpl in Hs.
    rewrite Hs, Hr. reflexivity.
Qed.

Lemma C3_witness :
  (Server.getCurrentUser sdk_error_world).1 = Return None /\
  (Server.getCurrentSession sdk_error_world).1 = Return None /\
  (Server.getCurrentUser bare_world).1 =
    Throw (ErrorInstance Server.missing_env_message) /\
  (Server.getCurrentUser sdk_rejecting_world).1 =
    Throw (ErrorInstance "fetch failed") /\
  (Server.getCurrentSession sdk_rejecting_world).1 =
    Throw (ErrorInstance "fetch failed").
Proof.
  pose (c0 := {| oid := 0; factory := SsrServerClient;
                 supabaseUrl := "https://payeasy.supabase.co";
                 supabaseKey := "anon-key";
                 options := Server.server_options |}).
  destruct (C3_helpers_null_on_reported_error sdk_error_world)
    as (Huser & Hsession & _).
  destruct (C3_helpers_null_on_reported_error bare_world)
    as (_ & _ & Hthrow & _).
  destruct (C3_helpers_null_on_reported_error sdk_rejecting_world)
    as (_ & _ & _ & Hru & Hrs).
  refine (conj _ (conj _ (conj _ (conj _ _)))).
  - rewrite (Huser c0 (Server.createServerClient sdk_error_world).2
               {| resp_data := None; resp_error := Some jwt_expired |}
               jwt_expired); reflexivity.
  - rewrite (Hsession c0 (Server.createServerClient sdk_error_world).2
               {| resp_data := None; resp_error := Some jwt_expired |}
               jwt_expired); reflexivity.
  - destruct (Hthrow (ErrorInstance Server.missing_env_message) bare_world)
      as [Hu _]; [reflexivity |].
    rewrite Hu. reflexivity.
  - rewrite (Hru c0 (Server.createServerClient sdk_rejecting_world).2
               (ErrorInstance "fetch failed")); reflexivity.
  - rewrite (Hrs c0 (Server.createServerClient sdk_rejecting_world).2
               (ErrorInstance "fetch failed")); reflexivity.
Defined.

(* ===================================================================== *)
(** * Properties of the authentication hook                               *)
(* ===================================================================== *)

Import UseAuth.

Ltac hook_unfold :=
  unfold useEffect_body, signOut, refreshSession, getInitialSession, await,
    try_finally, try_catch, setUser, setSession, setLoading, setError,
    perform, mbind, M_bind, bind, mret, M_ret, ret, throw, modify, gets.

Lemma callback_state (event : AuthChangeEvent) (cs : option Session) (h : Hook) :
  (onAuthStateChange_callback event cs h).2 =
  {| user := session_user <$> cs; session := cs; loading := false;
     error := error h;
     effects := match event with
                | SIGNED_IN | SIGNED_OUT => effects h ++ [RouterRefresh]
                | _ => effects h
                end |}.
Proof. destruct event; reflexivity. Qed.

Lemma deliver_snoc ns (n : AuthChangeEvent * option Session) (h : Hook) :
  deliver (ns ++ [n]) h = (onAuthStateChange_callback n.1 n.2 (deliver ns h)).2.
Proof. unfold deliver. rewrite fold_left_app. reflexivity. Qed.

(** Notifications never write [error] and never fetch the session. *)
Lemma deliver_frame ns (h : Hook) :
  error (deliver ns h) = error h /\
  session_fetches (deliver ns h) = session_fetches h.
Proof.
  induction ns as [| n ns IH] using rev_ind; [split; reflexivity |].
  rewrite deliver_snoc, callback_state. destruct IH as [He Hf].
  split; [exact He |].
  unfold session_fetches in *. simpl.
  destruct n.1; try exact Hf;
    rewrite List.filter_app, length_app; simpl; lia.
Qed.

(** After a run of notifications [user] and [session] are those of the last
    one. *)
Lemma deliver_last ns (h : Hook) :
  session (deliver ns h) =
    match last ns with Some n => n.2 | None => session h end /\
  user (deliver ns h) =
    match last ns with Some n => session_user <$> n.2 | None => user h end.
Proof.
  destruct ns as [| n ns] using rev_ind; [split; reflexivity |].
  rewrite deliver_snoc, callback_state, last_snoc. split; reflexivity.
Qed.

(** C4. When the SDK call of [signOut] succeeds, [signOut] returns normally
    with [user] and [session] null and [loading] false, and the last two
    things it did are [router.push('/')] and [router.refresh()], whatever
    happened to the hook while the call was pending. *)
Theorem C4_signOut_success
    (h : Hook) (meanwhile : Hook -> Hook) (r : Response unit) :
  resp_error r = None ->
  let pending :=
    meanwhile {| user := user h; session := session h; loading := true;
                 error := None; effects := effects h ++ [SdkSignOut] |} in
  let h' := (signOut (Fulfilled r) meanwhile h).2 in
  (signOut (Fulfilled r) meanwhile h).1 = Return tt /\
  user h' = None /\ session h' = None /\ loading h' = false /\
  effects h' = effects pending ++ [RouterPush "/"; RouterRefresh].
Proof.
  intros Hr. hook_unfold. simpl. rewrite Hr. simpl.
  rewrite <- app_assoc. simpl. auto.
Qed.

Lemma C4_witness :
  resp_error {| resp_data := @None unit; resp_error := None |} = None /\
  ((signOut signOut_ok id signed_in).1 = Return tt /\
   user (signOut signOut_ok id signed_in).2 = None /\
   session (signOut signOut_ok id signed_in).2 = None /\
   loading (signOut signOut_ok id signed_in).2 = false /\
   effects (signOut signOut_ok id signed_in).2 =
     [SdkGetSession; SdkOnAuthStateChange; SdkSignOut;
      RouterPush "/"; RouterRefresh]).
Proof.
  split; [reflexivity |].
  exact (C4_signOut_success signed_in id
           {| resp_data := None; resp_error := None |} eq_refl).
Defined.

(** What a failing [signOut] leaves behind. *)
Lemma signOut_failure
    (h : Hook) (meanwhile : Hook -> Hook) (result : Settled unit) (v : thrown) :
  failure result = Some v ->
  signOut result meanwhile h =
  let pending :=
    meanwhile {| user := user h; session := session h; loading := true;
                 error := None; effects := effects h ++ [SdkSignOut] |} in
  (Throw v,
   {| user := user pending; session := session pending; loading := false;
      error := Some (message_or "Failed to sign out" v);
      effects := effects pending |}).
Proof.
  intros Hf. destruct result as [r | v0]; simpl in Hf.
  - destruct (resp_error r) as [e |] eqn:He; [| discriminate].
    injection Hf as <-.
    hook_unfold. simpl. rewrite He. reflexivity.
  - injection Hf as <-. hook_unfold. reflexivity.
Qed.

(** C5, as the specification states it, fails: when the SDK call is rejected
    with a value that is not an [Error] instance, the failure is re-raised
    and [loading] is false, but [error] holds the text ['Failed to sign out']
    and not the [message] of the failure. *)
Lemma C5_counterexample :
  failure (Rejected network_down : Settled unit) = Some network_down /\
  message_of network_down = Some "network down" /\
  error (signOut (Rejected network_down) id signed_in).2 =
    Some "Failed to sign out" /\
  error (signOut (Rejected network_down) id signed_in).2 <>
    message_of network_down.
Proof.
  split; [reflexivity |]. split; [reflexivity |]. split; [reflexivity |].
  vm_compute. discriminate.
Qed.

(** C5, amended. When [signOut] fails (the SDK answers with an error, or the
    call is rejected), the failure is re-raised to the caller, [loading] is
    false afterwards, and [error] is populated: with the failure's message
    when the failure is an [Error] instance (an SDK error always is), and
    with the text ['Failed to sign out'] when it is not. *)
Theorem C5_signOut_failure
    (h : Hook) (meanwhile : Hook -> Hook) (result : Settled unit) (v : thrown) :
  failure result = Some v ->
  let h' := (signOut result meanwhile h).2 in
  (signOut result meanwhile h).1 = Throw v /\
  loading h' = false /\
  (instanceof_Error v = true -> error h' = message_of v) /\
  (instanceof_Error v = false -> error h' = Some "Failed to sign out").
Proof.
  intros Hf. rewrite (signOut_failure h meanwhile result v Hf). simpl.
  split; [reflexivity |]. split; [reflexivity |].
  destruct v; simpl; split; intros Hi; (discriminate || reflexivity).
Qed.

Lemma C5_witness :
  failure signOut_refused = Some (ErrorInstance "JWT expired") /\
  ((signOut signOut_refused id signed_in).1 = Throw (ErrorInstance "JWT expired") /\
   loading (signOut signOut_refused id signed_in).2 = false /\
   error (signOut signOut_refused id signed_in).2 = Some "JWT expired") /\
  (failure (Rejected network_down : Settled unit) = Some network_down /\
   error (signOut (Rejected network_down) id signed_in).2 =
     Some "Failed to sign out").
Proof.
  split; [reflexivity |]. split.
  - destruct (C5_signOut_failure signed_in id signOut_refused
                (ErrorInstance "JWT expired") eq_refl) as (Ho & Hl & Hm & _).
    split; [exact Ho |]. split; [exact Hl |]. exact (Hm eq_refl).
  - split; [reflexivity |].
    destruct (C5_signOut_failure signed_in id (Rejected network_down)
                network_down eq_refl) as (_ & _ & _ & Hm).
    exact (Hm eq_refl).
Defined.




(** The state of the hook when the initial fetch resumes: the effect has
    run and the SDK has delivered [ns]. *)
Lemma useEffect_body_unfold
    (result : Settled Session) (ns : list (AuthChangeEvent * option Session))
    (h : Hook) :
  useEffect_body result ns h =
  let pending :=
    deliver ns {| user := user h; session := session h; loading := loading h;
                  error := error h;
                  effects := (effects h ++ [SdkGetSession])
                               ++ [SdkOnAuthStateChange] |} in
  (Return tt,
   match result with
   | Rejected v =>
       {| user := user pending; session := session pending; loading := false;
          error := Some (message_or "Failed to get session" v);
          effects := effects pending |}
   | Fulfilled r =>
       match resp_error r with
       | Some sessionError =>
           {| user := user pending; session := session pending;
              loading := false; error := Some (auth_message sessionError);
              effects := effects pending |}
       | None =>
           {| user := session_user <$> resp_data r; session := resp_data r;
              loading := false; error := error pending;
              effects := effects pending |}
       end
   end).
Proof.
  hook_unfold. simpl. destruct result as [r | v]; [| reflexivity].
  simpl. destruct (resp_error r); reflexivity.
Qed.

(** C6. From the initial state, where [loading] is true, a mount whose
    session fetch succeeds ends with [session] the fetched session, [user]
    that session's user (null when the session is null) and [loading]
    false, whatever notifications arrived before the fetch settled; the
    mount asks the SDK for the session exactly once. *)
Theorem C6_initial_fetch_success
    (r : Response Session) (ns : list (AuthChangeEvent * option Session)) :
  resp_error r = None ->
  let h' := (useEffect_body (Fulfilled r) ns initial).2 in
  loading initial = true /\
  (useEffect_body (Fulfilled r) ns initial).1 = Return tt /\
  session h' = resp_data r /\
  user h' = session_user <$> resp_data r /\
  loading h' = false /\
  session_fetches h' = 1.
Proof.
  intros Hr. rewrite useEffect_body_unfold. simpl. rewrite Hr.
  repeat (split; [reflexivity |]).
  unfold session_fetches at 1. simpl.
  match goal with
  | |- context [deliver ns ?h0] =>
      destruct (deliver_frame ns h0) as [_ Hf];
      unfold session_fetches in Hf; rewrite Hf
  end.
  reflexivity.
Qed.

Lemma C6_witness :
  resp_error {| resp_data := Some alice_session; resp_error := None |} = None /\
  session (useEffect_body session_found [(INITIAL_SESSION, None)] initial).2 =
    Some alice_session /\
  user (useEffect_body session_found [(INITIAL_SESSION, None)] initial).2 =
    Some alice /\
  loading (useEffect_body session_found [(INITIAL_SESSION, None)] initial).2 =
    false /\
  session_fetches
    (useEffect_body session_found [(INITIAL_SESSION, None)] initial).2 = 1.
Proof.
  split; [reflexivity |].
  destruct (C6_initial_fetch_success
              {| resp_data := Some alice_session; resp_error := None |}
              [(INITIAL_SESSION, None)] eq_refl)
    as (_ & _ & Hs & Hu & Hl & Hf).
  split; [exact Hs |]. split; [exact Hu |]. split; [exact Hl |]. exact Hf.
Defined.




(* ===================================================================== *)
(** * Further properties of the client accessors                          *)
(* ===================================================================== *)

Lemma not_nonempty (o : option string) (v : string) :
  o = Some v -> v <> "" -> not_ o = false.
Proof. intros -> Hv. destruct v; [congruence | reflexivity]. Qed.

Lemma not_false_Some (o : option string) :
  not_ o = false -> o = Some (default "" o) /\ default "" o <> "".
Proof. destruct o as [[| a v] |]; simpl; intros H; try discriminate; auto. Qed.

Lemma sdk_decides_Refuses (s0 : Sdk) (f : Factory) (url key : string)
    (v : thrown) :
  sdk_decides s0 f url key = Refuses v -> sdk_rejects s0 f url key = Some v.
Proof.
  unfold sdk_decides.
  destruct (is_SsrBrowserClient f && ssr_isBrowser s0);
    [destruct (ssr_cachedBrowserClient s0); [discriminate |] |];
    destruct (sdk_rejects s0 f url key); intros H;
    (discriminate H || (injection H as <-; reflexivity)).
Qed.




(** With its two variables set and non-empty, [createServerClient] first
    awaits [cookies()].  If that rejects, the rejection is the outcome and
    the SDK constructor is not called.  Otherwise the URL, the anonymous key
    and the fixed server options go to the SDK constructor: if it accepts
    them the client returned is built from them, if it refuses them its
    error is the outcome. *)
Theorem createServerClient_when_configured (w : World) (url anon : string) :
  env w !! "NEXT_PUBLIC_SUPABASE_URL" = Some url -> url <> "" ->
  env w !! "NEXT_PUBLIC_SUPABASE_ANON_KEY" = Some anon -> anon <> "" ->
  (forall v, cookies_unavailable w = Some v ->
     Server.createServerClient w = (Throw v, log_call NextCookies w)) /\
  (cookies_unavailable w = None ->
   (sdk_rejects (sdk w) SsrServerClient url anon = None ->
    let c := {| oid := next_oid w; factory := SsrServerClient;
                supabaseUrl := url; supabaseKey := anon;
                options := Server.server_options |} in
    (Server.createServerClient w).1 = Return c /\
    calls (Server.createServerClient w).2 =
      calls w ++ [NextCookies; Construct c]) /\
   (forall v, sdk_rejects (sdk w) SsrServerClient url anon = Some v ->
      Server.createServerClient w =
        (Throw v,
         log_call (ConstructThrew SsrServerClient url anon)
           (log_call NextCookies w)))).
Proof.
  intros Hu Hune Hk Hkne.
  rewrite createServerClient_unfold.
  rewrite (not_nonempty _ _ Hu Hune), (not_nonempty _ _ Hk Hkne), Hu, Hk.
  simpl. split.
  - intros v Hv. rewrite Hv. reflexivity.
  - intros Hn. rewrite Hn, sdk_construct_unfold.
    rewrite sdk_decides_allocating by reflexivity. simpl.
    split.
    + intros ->. simpl. rewrite <- app_assoc. split; reflexivity.
    + intros v ->. reflexivity.
Qed.

Lemma createServerClient_when_configured_witness :
  Server.createServerClient outside_request_world =
    (Throw (ErrorInstance "outside a request scope"),
     log_call NextCookies outside_request_world) /\
  (exists c, (Server.createServerClient configured_world).1 = Return c /\
             supabaseKey c = "anon-key") /\
  (Server.createServerClient malformed_url_world).1 =
    Throw (ErrorInstance "Invalid supabaseUrl").
Proof.
  assert (Hu : "https://payeasy.supabase.co" <> "") by discriminate.
  assert (Hk : "anon-key" <> "") by discriminate.
  split; [| split].
  - destruct (createServerClient_when_configured outside_request_world
                "https://payeasy.supabase.co" "anon-key"
                eq_refl Hu eq_refl Hk) as [Hrej _].
    apply Hrej. reflexivity.
  - destruct (createServerClient_when_configured configured_world
                "https://payeasy.supabase.co" "anon-key"
                eq_refl Hu eq_refl Hk) as [_ Hok].
    destruct (Hok eq_refl) as [Hret _].
    destruct (Hret eq_refl) as [Hc _].
    eexists. split; [exact Hc | reflexivity].
  - destruct (createServerClient_when_configured malformed_url_world
                "payeasy" "anon-key" eq_refl ltac:(discriminate) eq_refl Hk)
      as [_ Hok].
    destruct (Hok eq_refl) as [_ Hthrow].
    rewrite (Hthrow (ErrorInstance "Invalid supabaseUrl") eq_refl).
    reflexivity.
Defined.

(** A failing accessor caches nothing.  If [getSupabaseClient] throws, the
    cache was empty and is still empty, the environment is as before and no
    browser client was constructed; and either the URL or the anonymous key
    is unset or empty, the value thrown is the configuration error and the
    world is exactly as before, or both are set and the value thrown is the
    SDK constructor's own refusal of them.  Likewise for [getAdminClient]. *)
Theorem accessor_failure_is_atomic (w w' : World) (v : thrown) :
  (Client.getSupabaseClient w = (Throw v, w') ->
   clientInstance w = None /\ clientInstance w' = None /\
   env w' = env w /\
   constructed SsrBrowserClient (calls w') =
     constructed SsrBrowserClient (calls w) /\
   ((v = ErrorInstance Client.missing_env_message /\ w' = w /\
     (unset_or_empty w "NEXT_PUBLIC_SUPABASE_URL" \/
      unset_or_empty w "NEXT_PUBLIC_SUPABASE_ANON_KEY")) \/
    (exists url key,
        env w !! "NEXT_PUBLIC_SUPABASE_URL" = Some url /\
        env w !! "NEXT_PUBLIC_SUPABASE_ANON_KEY" = Some key /\
        sdk_rejects (sdk w) SsrBrowserClient url key = Some v /\
        w' = log_call (ConstructThrew SsrBrowserClient url key) w))) /\
  (Server.getAdminClient w = (Throw v, w') ->
   adminClientInstance w = None /\ adminClientInstance w' = None /\
   env w' = env w /\
   constructed SupabaseJsClient (calls w') =
     constructed SupabaseJsClient (calls w) /\
   ((v = ErrorInstance Server.missing_admin_env_message /\ w' = w /\
     (unset_or_empty w "NEXT_PUBLIC_SUPABASE_URL" \/
      unset_or_empty w "SUPABASE_SERVICE_ROLE_KEY")) \/
    (exists url key,
        env w !! "NEXT_PUBLIC_SUPABASE_URL" = Some url /\
        env w !! "SUPABASE_SERVICE_ROLE_KEY" = Some key /\
        sdk_rejects (sdk w) SupabaseJsClient url key = Some v /\
        w' = log_call (ConstructThrew SupabaseJsClient url key) w))).
Proof.
  assert (Hfalsy : forall o : option string,
             not_ o = true -> o = None \/ o = Some "").
  { intros [[| a s0] |]; simpl; intros H; try discriminate; auto. }
  split; intros H.
  - rewrite getSupabaseClient_unfold in H.
    destruct (clientInstance w) eqn:Hc; [discriminate |].
    rewrite createBrowserClient_unfold in H.
    destruct (not_ (env w !! "NEXT_PUBLIC_SUPABASE_URL")) eqn:Hu;
      [| destruct (not_ (env w !! "NEXT_PUBLIC_SUPABASE_ANON_KEY")) eqn:Hk];
      simpl in H.
    + injection H as <- <-. repeat (split; [reflexivity || exact Hc |]).
      left. split; [reflexivity | split; [reflexivity |]].
      left. apply Hfalsy, Hu.
    + injection H as <- <-. repeat (split; [reflexivity || exact Hc |]).
      left. split; [reflexivity | split; [reflexivity |]].
      right. apply Hfalsy, Hk.
    + rewrite sdk_construct_unfold in H.
      destruct (sdk_decides _ _ _ _) eqn:Hd; simpl in H; try discriminate.
      injection H as <- <-. simpl.
      split; [reflexivity | split; [exact Hc | split; [reflexivity |]]].
      split; [rewrite constructed_app; simpl; apply app_nil_r |].
      right. eexists. eexists.
      split; [apply not_false_Some, Hu |].
      split; [apply not_false_Some, Hk |].
      split; [apply sdk_decides_Refuses, Hd | reflexivity].
  - rewrite getAdminClient_unfold in H.
    destruct (adminClientInstance w) eqn:Hc; [discriminate |].
    rewrite createAdminClient_unfold in H.
    destruct (not_ (env w !! "NEXT_PUBLIC_SUPABASE_URL")) eqn:Hu;
      [| destruct (not_ (env w !! "SUPABASE_SERVICE_ROLE_KEY")) eqn:Hk];
      simpl in H.
    + injection H as <- <-. repeat (split; [reflexivity || exact Hc |]).
      left. split; [reflexivity | split; [reflexivity |]].
      left. apply Hfalsy, Hu.
    + injection H as <- <-. repeat (split; [reflexivity || exact Hc |]).
      left. split; [reflexivity | split; [reflexivity |]].
      right. apply Hfalsy, Hk.
    + rewrite sdk_construct_unfold in H.
      destruct (sdk_decides _ _ _ _) eqn:Hd; simpl in H; try discriminate.
      injection H as <- <-. simpl.
      split; [reflexivity | split; [exact Hc | split; [reflexivity |]]].
      split; [rewrite constructed_app; simpl; apply app_nil_r |].
      right. eexists. eexists.
      split; [apply not_false_Some, Hu |].
      split; [apply not_false_Some, Hk |].
      split; [apply sdk_decides_Refuses, Hd | reflexivity].
Qed.

Lemma accessor_failure_is_atomic_witness :
  Client.getSupabaseClient bare_world =
    (Throw (ErrorInstance Client.missing_env_message), bare_world) /\
  clientInstance bare_world = None /\
  (Server.getAdminClient malformed_url_world).1 =
    Throw (ErrorInstance "Invalid supabaseUrl") /\
  adminClientInstance (Server.getAdminClient malformed_url_world).2 = None.
Proof.
  split; [vm_compute; reflexivity |].
  destruct (accessor_failure_is_atomic bare_world bare_world
              (ErrorInstance Client.missing_env_message)) as [Hb _].
  destruct (Hb ltac:(vm_compute; reflexivity)) as (Hnone & _).
  split; [exact Hnone |].
  split; [vm_compute; reflexivity |].
  destruct (accessor_failure_is_atomic malformed_url_world
              (Server.getAdminClient malformed_url_world).2
              (ErrorInstance "Invalid supabaseUrl")) as [_ Ha].
  destruct (Ha ltac:(vm_compute; reflexivity)) as (_ & Hafter & _).
  exact Hafter.
Defined.

(** What one accessor call adds to the log: nothing, a constructor call that
    threw, or the construction of one client from the environment. *)
Lemma run_call_log (call : Call) (w : World) :
  calls (run_call call w).2 = calls w \/
  (exists f url key,
      calls (run_call call w).2 = calls w ++ [ConstructThrew f url key]) \/
  exists c,
    calls (run_call call w).2 = calls w ++ [Construct c] /\
    env w !! "NEXT_PUBLIC_SUPABASE_URL" = Some (supabaseUrl c) /\
    ((factory c = SsrBrowserClient /\
      env w !! "NEXT_PUBLIC_SUPABASE_ANON_KEY" = Some (supabaseKey c) /\
      options c = Client.browser_options) \/
     (factory c = SupabaseJsClient /\
      env w !! "SUPABASE_SERVICE_ROLE_KEY" = Some (supabaseKey c) /\
      options c = Server.admin_options)).
Proof.
  destruct call; unfold run_call, mbind, M_bind, bind; simpl; auto.
  - rewrite getSupabaseClient_unfold.
    destruct (clientInstance w); simpl; [auto |].
    rewrite createBrowserClient_unfold.
    destruct (not_ (env w !! "NEXT_PUBLIC_SUPABASE_URL")) eqn:Hu;
      [simpl; auto |].
    destruct (not_ (env w !! "NEXT_PUBLIC_SUPABASE_ANON_KEY")) eqn:Hk;
      [simpl; auto |].
    simpl. sdk_cases; [right; left; eauto | |];
      (right; right; eexists; split; [reflexivity |]; simpl;
       split; [apply not_false_Some, Hu |];
       left; split; [reflexivity |];
       split; [apply not_false_Some, Hk | reflexivity]).
  - rewrite getAdminClient_unfold.
    destruct (adminClientInstance w); simpl; [auto |].
    rewrite createAdminClient_unfold.
    destruct (not_ (env w !! "NEXT_PUBLIC_SUPABASE_URL")) eqn:Hu;
      [simpl; auto |].
    destruct (not_ (env w !! "SUPABASE_SERVICE_ROLE_KEY")) eqn:Hk;
      [simpl; auto |].
    simpl. sdk_cases; [right; left; eauto | |];
      (right; right; eexists; split; [reflexivity |]; simpl;
       split; [apply not_false_Some, Hu |];
       right; split; [reflexivity |];
       split; [apply not_false_Some, Hk | reflexivity]).
Qed.

Lemma constructed_snoc_In (f : Factory) (log : list ExternalCall)
    (c0 c : SupabaseClient) :
  In c (constructed f (log ++ [Construct c0])) ->
  In c (constructed f log) \/ (c = c0 /\ factory c0 = f).
Proof.
  rewrite constructed_app. intros Hin. apply in_app_or in Hin as [Hin | Hin].
  - left. exact Hin.
  - simpl in Hin. destruct (Factory_eqb (factory c0) f) eqn:Hf; [| destruct Hin].
    destruct Hin as [<- | []]. right. split; [reflexivity |].
    destruct (factory c0), f; (reflexivity || discriminate).
Qed.

(** Credentials never cross.  In every run of accessor calls, each browser
    client constructed during the run was built from the URL and the
    anonymous key of the environment, each admin client from the URL and the
    service-role key, each with its constructor's fixed options; and the
    accessors never construct a cookie-scoped client. *)
Theorem accessors_build_from_their_own_key
    (cs : list Call) (w : World) (c : SupabaseClient) :
  (In c (constructed SsrBrowserClient (calls (run_calls cs w).2)) ->
   In c (constructed SsrBrowserClient (calls w)) \/
   (env w !! "NEXT_PUBLIC_SUPABASE_URL" = Some (supabaseUrl c) /\
    env w !! "NEXT_PUBLIC_SUPABASE_ANON_KEY" = Some (supabaseKey c) /\
    options c = Client.browser_options)) /\
  (In c (constructed SupabaseJsClient (calls (run_calls cs w).2)) ->
   In c (constructed SupabaseJsClient (calls w)) \/
   (env w !! "NEXT_PUBLIC_SUPABASE_URL" = Some (supabaseUrl c) /\
    env w !! "SUPABASE_SERVICE_ROLE_KEY" = Some (supabaseKey c) /\
    options c = Server.admin_options)) /\
  constructed SsrServerClient (calls (run_calls cs w).2) =
    constructed SsrServerClient (calls w).
Proof.
  revert w. induction cs as [| call rest IH]; intros w.
  - simpl. auto.
  - rewrite run_calls_cons. simpl.
    destruct (IH (run_call call w).2) as (IHb & IHa & IHs).
    destruct (run_call_frame call w) as [He _]. rewrite He in IHb, IHa.
    destruct (run_call_log call w)
      as [Hlog | [(f0 & u0 & k0 & Hlog) | (c0 & Hlog & Hurl & Hkind)]];
      rewrite Hlog in IHb, IHa, IHs.
    + auto.
    + rewrite !constructed_app in IHb, IHa, IHs. simpl in IHb, IHa, IHs.
      rewrite !app_nil_r in IHb, IHa, IHs. auto.
    + split; [| split].
      * intros Hin. destruct (IHb Hin) as [Hold | Hnew]; [| auto].
        apply constructed_snoc_In in Hold as [Hold | [-> Hf]]; [auto |].
        right. destruct Hkind as [(_ & Hk & Ho) | (Hf' & _)]; [auto | congruence].
      * intros Hin. destruct (IHa Hin) as [Hold | Hnew]; [| auto].
        apply constructed_snoc_In in Hold as [Hold | [-> Hf]]; [auto |].
        right. destruct Hkind as [(Hf' & _) | (_ & Hk & Ho)]; [congruence | auto].
      * rewrite IHs, constructed_app. simpl.
        destruct Hkind as [(Hf & _) | (Hf & _)]; rewrite Hf; simpl;
          apply app_nil_r.
Qed.

Lemma run_call_budget (call : Call) (w : World) :
  length (constructed SsrBrowserClient (calls (run_call call w).2))
    + vacancy (clientInstance (run_call call w).2)
  <= length (constructed SsrBrowserClient (calls w))
     + vacancy (clientInstance w) + client_resets [call] /\
  length (constructed SupabaseJsClient (calls (run_call call w).2))
    + vacancy (adminClientInstance (run_call call w).2)
  <= length (constructed SupabaseJsClient (calls w))
     + vacancy (adminClientInstance w) + admin_resets [call].
Proof.
  destruct call; unfold run_call, mbind, M_bind, bind; simpl.
  - rewrite getSupabaseClient_unfold.
    destruct (clientInstance w) eqn:Hc; simpl; [rewrite Hc; simpl; lia |].
    rewrite createBrowserClient_unfold.
    destruct (not_ _ || not_ _); simpl; [rewrite Hc; simpl; lia |].
    sdk_cases; rewrite ?Hc, !constructed_app, !length_app; simpl; lia.
  - destruct (clientInstance w); simpl; lia.
  - rewrite getAdminClient_unfold.
    destruct (adminClientInstance w) eqn:Hc; simpl; [rewrite Hc; simpl; lia |].
    rewrite createAdminClient_unfold.
    destruct (not_ _ || not_ _); simpl; [rewrite Hc; simpl; lia |].
    sdk_cases; rewrite ?Hc, !constructed_app, !length_app; simpl; lia.
  - destruct (adminClientInstance w); simpl; lia.
Qed.

Lemma resets_cons (call : Call) (rest : list Call) :
  client_resets (call :: rest) = client_resets [call] + client_resets rest /\
  admin_resets (call :: rest) = admin_resets [call] + admin_resets rest.
Proof. destruct call; simpl; split; reflexivity. Qed.

(** At most one construction per reset.  Over any run of accessor calls the
    number of browser clients constructed grows by at most the number of
    [resetClientInstance] calls in the run, plus one if the cache was empty
    at the start; likewise for admin clients and
    [resetAdminClientInstance]. *)
Theorem constructions_bounded_by_resets (cs : list Call) (w : World) :
  length (constructed SsrBrowserClient (calls (run_calls cs w).2))
  <= length (constructed SsrBrowserClient (calls w))
     + client_resets cs + vacancy (clientInstance w) /\
  length (constructed SupabaseJsClient (calls (run_calls cs w).2))
  <= length (constructed SupabaseJsClient (calls w))
     + admin_resets cs + vacancy (adminClientInstance w).
Proof.
  assert (Hstrong :
    length (constructed SsrBrowserClient (calls (run_calls cs w).2))
      + vacancy (clientInstance (run_calls cs w).2)
    <= length (constructed SsrBrowserClient (calls w))
       + client_resets cs + vacancy (clientInstance w) /\
    length (constructed SupabaseJsClient (calls (run_calls cs w).2))
      + vacancy (adminClientInstance (run_calls cs w).2)
    <= length (constructed SupabaseJsClient (calls w))
       + admin_resets cs + vacancy (adminClientInstance w)).
  { revert w. induction cs as [| call rest IH]; intros w.
    - simpl. lia.
    - rewrite run_calls_cons.
      destruct (resets_cons call rest) as [-> ->].
      destruct (run_call_budget call w) as [Hb Ha].
      destruct (IH (run_call call w).2) as [IHb IHa].
      cbn [snd]. lia. }
  lia.
Qed.

Lemma accessors_build_from_their_own_key_witness :
  In first_browser_client
     (constructed SsrBrowserClient
        (calls (run_calls [GetSupabaseClient; GetAdminClient]
                  configured_world).2)) /\
  env configured_world !! "NEXT_PUBLIC_SUPABASE_ANON_KEY" =
    Some (supabaseKey first_browser_client) /\
  In first_admin_client
     (constructed SupabaseJsClient
        (calls (run_calls [GetAdminClient] configured_world).2)) /\
  env configured_world !! "SUPABASE_SERVICE_ROLE_KEY" =
    Some (supabaseKey first_admin_client).
Proof.
  assert (Hb : In first_browser_client
                 (constructed SsrBrowserClient
                    (calls (run_calls [GetSupabaseClient; GetAdminClient]
                              configured_world).2)))
    by (vm_compute; left; reflexivity).
  assert (Ha : In first_admin_client
                 (constructed SupabaseJsClient
                    (calls (run_calls [GetAdminClient] configured_world).2)))
    by (vm_compute; left; reflexivity).
  split; [exact Hb | split; [| split; [exact Ha |]]].
  - destruct (accessors_build_from_their_own_key
                [GetSupabaseClient; GetAdminClient] configured_world
                first_browser_client) as (Hkey & _ & _).
    destruct (Hkey Hb) as [[] | (_ & Hk & _)]. exact Hk.
  - destruct (accessors_build_from_their_own_key
                [GetAdminClient] configured_world
                first_admin_client) as (_ & Hkey & _).
    destruct (Hkey Ha) as [[] | (_ & Hk & _)]. exact Hk.
Defined.

(* ===================================================================== *)
(** * Further properties of the server module                             *)
(* ===================================================================== *)

(** [createServerClient] keeps no instance: a call that returned is followed
    by a call that returns another client, each call awaits [cookies()] and
    calls the SDK constructor once, and neither singleton is touched. *)
Theorem createServerClient_is_not_cached
    (w w1 : World) (c1 : SupabaseClient) :
  Server.createServerClient w = (Return c1, w1) ->
  exists c2 w2,
    Server.createServerClient w1 = (Return c2, w2) /\
    oid c2 <> oid c1 /\
    calls w2 = calls w ++ [NextCookies; Construct c1; NextCookies; Construct c2] /\
    clientInstance w2 = clientInstance w /\
    adminClientInstance w2 = adminClientInstance w.
Proof.
  intros H. rewrite createServerClient_unfold in H.
  destruct (not_ _ || not_ _) eqn:Henv; [discriminate |].
  destruct (cookies_unavailable w) eqn:Hck; [discriminate |].
  rewrite sdk_construct_unfold in H.
  rewrite sdk_decides_allocating in H by reflexivity. simpl in H.
  destruct (sdk_rejects (sdk w) SsrServerClient _ _) eqn:Hr;
    [discriminate |].
  injection H as <- <-.
  eexists. eexists. rewrite createServerClient_unfold. simpl.
  rewrite Henv, Hck. rewrite sdk_construct_unfold.
  rewrite sdk_decides_allocating by reflexivity. simpl. rewrite Hr.
  split; [reflexivity |]. simpl.
  split; [lia |].
  split; [rewrite <- !app_assoc; reflexivity |].
  split; reflexivity.
Qed.

Lemma createServerClient_is_not_cached_witness :
  (Server.createServerClient configured_world).1 =
    Return {| oid := 0; factory := SsrServerClient;
              supabaseUrl := "https://payeasy.supabase.co";
              supabaseKey := "anon-key";
              options := Server.server_options |} /\
  exists c2 w2,
    Server.createServerClient (Server.createServerClient configured_world).2 =
      (Return c2, w2) /\ oid c2 <> 0.
Proof.
  split; [vm_compute; reflexivity |].
  destruct (createServerClient_is_not_cached configured_world
              (Server.createServerClient configured_world).2
              {| oid := 0; factory := SsrServerClient;
                 supabaseUrl := "https://payeasy.supabase.co";
                 supabaseKey := "anon-key";
                 options := Server.server_options |})
    as (c2 & w2 & Hcall & Hoid & _).
  - vm_compute. reflexivity.
  - exists c2, w2. split; [exact Hcall | exact Hoid].
Defined.

(** A helper vouches for what it returns.  [getCurrentUser] returns a user
    only if the SDK answered with that user and no error, in a completely
    configured environment; an answer carrying an error yields null even
    when it also carries a user.  Likewise for [getCurrentSession]. *)
Theorem helpers_return_only_what_the_sdk_vouched
    (w : World) :
  (forall u, (Server.getCurrentUser w).1 = Return (Some u) ->
     getUser_result w = Fulfilled {| resp_data := Some u; resp_error := None |} /\
     not_ (env w !! "NEXT_PUBLIC_SUPABASE_URL") = false /\
     not_ (env w !! "NEXT_PUBLIC_SUPABASE_ANON_KEY") = false) /\
  (forall s0, (Server.getCurrentSession w).1 = Return (Some s0) ->
     getSession_result w =
       Fulfilled {| resp_data := Some s0; resp_error := None |} /\
     not_ (env w !! "NEXT_PUBLIC_SUPABASE_URL") = false /\
     not_ (env w !! "NEXT_PUBLIC_SUPABASE_ANON_KEY") = false).
Proof.
  destruct (createServerClient_results w) as [Hu Hs].
  assert (Henv : forall c w1,
             Server.createServerClient w = (Return c, w1) ->
             not_ (env w !! "NEXT_PUBLIC_SUPABASE_URL") = false /\
             not_ (env w !! "NEXT_PUBLIC_SUPABASE_ANON_KEY") = false).
  { intros c w1 Hc. rewrite createServerClient_unfold in Hc.
    destruct (not_ (env w !! "NEXT_PUBLIC_SUPABASE_URL"));
      [discriminate |].
    destruct (not_ (env w !! "NEXT_PUBLIC_SUPABASE_ANON_KEY"));
      [discriminate |].
    auto. }
  split.
  - intros u H. rewrite getCurrentUser_unfold in H.
    destruct (Server.createServerClient w) as [[c | v] w1] eqn:Hc;
      [| discriminate].
    simpl in Hu. rewrite Hu in H.
    destruct (getUser_result w) as [[d e] | v]; [| discriminate].
    simpl in H. destruct e, d; simpl in H; try discriminate.
    injection H as ->. split; [reflexivity | exact (Henv c w1 eq_refl)].
  - intros s0 H. rewrite getCurrentSession_unfold in H.
    destruct (Server.createServerClient w) as [[c | v] w1] eqn:Hc;
      [| discriminate].
    simpl in Hs. rewrite Hs in H.
    destruct (getSession_result w) as [[d e] | v]; [| discriminate].
    simpl in H. destruct e, d; simpl in H; try discriminate.
    injection H as ->. split; [reflexivity | exact (Henv c w1 eq_refl)].
Qed.

Lemma helpers_return_only_what_the_sdk_vouched_witness :
  (Server.getCurrentUser configured_world).1 = Return (Some alice) /\
  getUser_result configured_world =
    Fulfilled {| resp_data := Some alice; resp_error := None |} /\
  (Server.getCurrentSession configured_world).1 = Return (Some alice_session) /\
  getSession_result configured_world =
    Fulfilled {| resp_data := Some alice_session; resp_error := None |}.
Proof.
  assert (Hu : (Server.getCurrentUser configured_world).1 = Return (Some alice))
    by (vm_compute; reflexivity).
  assert (Hs : (Server.getCurrentSession configured_world).1 =
               Return (Some alice_session))
    by (vm_compute; reflexivity).
  destruct (helpers_return_only_what_the_sdk_vouched configured_world)
    as [Huser Hsession].
  split; [exact Hu | split; [exact (proj1 (Huser alice Hu)) |]].
  split; [exact Hs | exact (proj1 (Hsession alice_session Hs))].
Defined.

(** The two helpers share nothing: [getCurrentUser] followed by
    [getCurrentSession] awaits [cookies()] twice and constructs two
    cookie-scoped clients, one per helper, before each SDK call. *)
Theorem helpers_each_build_a_client
    (w w1 : World) (c1 : SupabaseClient)
    (r1 : Response User) (r2 : Response Session) :
  Server.createServerClient w = (Return c1, w1) ->
  getUser_result w = Fulfilled r1 ->
  getSession_result w = Fulfilled r2 ->
  exists c2,
    calls (Server.getCurrentSession (Server.getCurrentUser w).2).2 =
      calls w ++ [NextCookies; Construct c1; AuthGetUser;
                  NextCookies; Construct c2; AuthGetSession] /\
    oid c2 <> oid c1 /\ factory c2 = SsrServerClient.
Proof.
  intros Hc Hr1 Hr2.
  destruct (createServerClient_results w) as [Hu Hs].
  rewrite getCurrentUser_unfold, Hc. rewrite Hc in Hu, Hs. simpl in Hu, Hs.
  rewrite Hu, Hr1. cbn [snd].
  rewrite createServerClient_unfold in Hc.
  destruct (not_ _ || not_ _) eqn:Henv; [discriminate |].
  destruct (cookies_unavailable w) eqn:Hck; [discriminate |].
  rewrite sdk_construct_unfold in Hc.
  rewrite sdk_decides_allocating in Hc by reflexivity. simpl in Hc.
  destruct (sdk_rejects (sdk w) SsrServerClient _ _) eqn:Hr;
    [discriminate |].
  injection Hc as <- <-.
  rewrite getCurrentSession_unfold, createServerClient_unfold. simpl.
  rewrite Henv, Hck, sdk_construct_unfold.
  rewrite sdk_decides_allocating by reflexivity. simpl.
  rewrite Hr. simpl. rewrite Hr2. simpl.
  eexists. split; [rewrite <- !app_assoc; reflexivity |].
  simpl. split; [lia | reflexivity].
Qed.

Lemma helpers_each_build_a_client_witness :
  length (constructed SsrServerClient
            (calls (Server.getCurrentSession
                      (Server.getCurrentUser configured_world).2).2)) = 2.
Proof.
  destruct (helpers_each_build_a_client configured_world
              (Server.createServerClient configured_world).2
              {| oid := 0; factory := SsrServerClient;
                 supabaseUrl := "https://payeasy.supabase.co";
                 supabaseKey := "anon-key";
                 options := Server.server_options |}
              {| resp_data := Some alice; resp_error := None |}
              {| resp_data := Some alice_session; resp_error := None |})
    as (c2 & Hcalls & _ & Hf).
  - vm_compute. reflexivity.
  - reflexivity.
  - reflexivity.
  - rewrite Hcalls. simpl. rewrite Hf. reflexivity.
Defined.

Lemma cookieStore_set_unfold nm vl opts (w : World) :
  cookieStore_set nm vl opts w =
  match set_method (cookieStore w) nm vl opts (jar (cookieStore w)) with
  | inl v => (Throw v, log_call (CookieStoreSet nm vl) w)
  | inr j => (Return tt, set_jar j (log_call (CookieStoreSet nm vl) w))
  end.
Proof.
  unfold cookieStore_set, mbind, M_bind, bind, modify, gets, throw. simpl.
  destruct (set_method _ _ _ _ _); reflexivity.
Qed.

Lemma forEach_app {St A} (f : A -> M St unit) (l1 l2 : list A) (s0 : St) :
  forEach f (l1 ++ l2) s0 =
  match forEach f l1 s0 with
  | (Return _, s1) => forEach f l2 s1
  | (Throw v, s1) => (Throw v, s1)
  end.
Proof.
  revert s0. induction l1 as [| x l1 IH]; intros s0; [reflexivity |].
  simpl. unfold mbind, M_bind, bind.
  destruct (f x s0) as [[[] | v] s1]; [apply IH | reflexivity].
Qed.

Lemma forEach_set_accepting sm (cookiesToSet : list CookieToSet) :
  (forall nm vl opts j, exists j', sm nm vl opts j = inr j') ->
  forall w : World,
    set_method (cookieStore w) = sm ->
    exists w',
      forEach (fun c => cookieStore_set (set_name c) (set_value c)
                          (set_options c)) cookiesToSet w = (Return tt, w') /\
      calls w' = calls w ++ map set_event cookiesToSet /\
      jar (cookieStore w') =
        fold_left (write_cookie sm) cookiesToSet (jar (cookieStore w)) /\
      set_method (cookieStore w') = sm.
Proof.
  intros Hacc. induction cookiesToSet as [| c rest IH]; intros w Hsm.
  - exists w. simpl. rewrite app_nil_r. auto.
  - simpl. unfold mbind, M_bind, bind. rewrite cookieStore_set_unfold.
    destruct (Hacc (set_name c) (set_value c) (set_options c)
                (jar (cookieStore w))) as [j' Hj].
    rewrite Hsm, Hj.
    destruct (IH (set_jar j' (log_call (CookieStoreSet (set_name c)
                                          (set_value c)) w)))
      as (w' & Hrun & Hcalls & Hjar & Hsm'); [exact Hsm |].
    exists w'. split; [exact Hrun |].
    split; [rewrite Hcalls; simpl; rewrite <- app_assoc; reflexivity |].
    split; [| exact Hsm'].
    rewrite Hjar. simpl. f_equal. unfold write_cookie. rewrite Hj.
    reflexivity.
Qed.

(** Where the cookie store accepts every write (a Route Handler, a Server
    Action), [setAll] hands every cookie to [cookieStore.set], in the order
    of the list, and the store ends with all of them written. *)
Theorem setAll_writes_every_cookie (w : World) (cookiesToSet : list CookieToSet) :
  (forall nm vl opts j,
      exists j', set_method (cookieStore w) nm vl opts j = inr j') ->
  exists w',
    Server.setAll cookiesToSet w = (Return tt, w') /\
    calls w' = calls w ++ map set_event cookiesToSet /\
    jar (cookieStore w') =
      fold_left (write_cookie (set_method (cookieStore w))) cookiesToSet
        (jar (cookieStore w)).
Proof.
  intros Hacc.
  destruct (forEach_set_accepting _ cookiesToSet Hacc w eq_refl)
    as (w' & Hrun & Hcalls & Hjar & _).
  exists w'. unfold Server.setAll, try_catch. rewrite Hrun. auto.
Qed.

Lemma setAll_writes_every_cookie_witness :
  let cs := [ {| set_name := "a"; set_value := "1"; set_options := [] |};
              {| set_name := "b"; set_value := "2"; set_options := [] |} ] in
  exists w',
    Server.setAll cs configured_world = (Return tt, w') /\
    calls w' = [CookieStoreSet "a" "1"; CookieStoreSet "b" "2"] /\
    jar (cookieStore w') =
      [ {| name := "b"; value := "2" |}; {| name := "a"; value := "1" |};
        {| name := "sb-access-token"; value := "abc" |} ].
Proof.
  intros cs.
  destruct (setAll_writes_every_cookie configured_world cs)
    as (w' & Hrun & Hcalls & Hjar).
  - intros nm vl opts j. eexists. reflexivity.
  - exists w'. split; [exact Hrun |]. split; [exact Hcalls | exact Hjar].
Defined.

(** [setAll] stops at the first refused write.  If the cookies [pre] were
    written and the store then refuses [bad], [setAll] returns normally, the
    cookies [pre] stay written, and no cookie after [bad] is handed to
    [cookieStore.set]. *)
Theorem setAll_stops_at_first_refusal
    (w w1 : World) (pre post : list CookieToSet) (bad : CookieToSet)
    (v : thrown) :
  forEach (fun c => cookieStore_set (set_name c) (set_value c) (set_options c))
    pre w = (Return tt, w1) ->
  set_method (cookieStore w1) (set_name bad) (set_value bad) (set_options bad)
    (jar (cookieStore w1)) = inl v ->
  Server.setAll (pre ++ bad :: post) w =
    (Return tt, log_call (set_event bad) w1).
Proof.
  intros Hpre Hbad. unfold Server.setAll, try_catch.
  rewrite forEach_app, Hpre. simpl. unfold mbind, M_bind, bind.
  rewrite cookieStore_set_unfold, Hbad. reflexivity.
Qed.

(** During render every write is refused: nothing is written and only the
    first cookie is tried. *)
Lemma setAll_stops_at_first_refusal_witness :
  let a := {| set_name := "a"; set_value := "1"; set_options := [] |} in
  let b := {| set_name := "b"; set_value := "2"; set_options := [] |} in
  Server.setAll [a; b] bare_world =
    (Return tt, log_call (CookieStoreSet "a" "1") bare_world).
Proof.
  intros a b.
  apply (setAll_stops_at_first_refusal bare_world bare_world [] [b] a
           (ErrorInstance
              "Cookies can only be modified in a Server Action or Route Handler."));
    reflexivity.
Defined.

(* ===================================================================== *)
(** * Further properties of the authentication hook                       *)
(* ===================================================================== *)

Lemma deliver_effects ns (h : Hook) :
  effects (deliver ns h) =
  effects h ++ map (fun _ => RouterRefresh) (List.filter is_sign_event ns).
Proof.
  induction ns as [| n ns IH] using rev_ind; [simpl; rewrite app_nil_r; reflexivity |].
  rewrite deliver_snoc, callback_state, List.filter_app, map_app. simpl.
  unfold is_sign_event at 2.
  destruct n.1; simpl; rewrite IH, ?app_nil_r, ?app_assoc; reflexivity.
Qed.

Lemma deliver_loading ns (h : Hook) :
  loading (deliver ns h) = match ns with [] => loading h | _ => false end.
Proof.
  destruct ns as [| n ns] using rev_ind; [reflexivity |].
  rewrite deliver_snoc, callback_state. simpl.
  destruct ns; reflexivity.
Qed.

(** What a run of notifications does to the hook: [router.refresh()] is
    called once for each SIGNED_IN or SIGNED_OUT notification and for no
    other, in order, and nothing else is done to the outside; [loading] is
    false as soon as one notification has arrived; [error] is never
    written, so a recorded error outlives any number of notifications. *)
Theorem notifications_refresh_on_sign_events
    (ns : list (AuthChangeEvent * option Session)) (h : Hook) :
  effects (deliver ns h) =
    effects h ++ map (fun _ => RouterRefresh) (List.filter is_sign_event ns) /\
  loading (deliver ns h) = match ns with [] => loading h | _ => false end /\
  error (deliver ns h) = error h.
Proof.
  split; [apply deliver_effects |].
  split; [apply deliver_loading | apply deliver_frame].
Qed.

(** The state [signOut] and [refreshSession] leave behind, case by case. *)
Lemma signOut_success
    (h : Hook) (meanwhile : Hook -> Hook) (r : Response unit) :
  resp_error r = None ->
  signOut (Fulfilled r) meanwhile h =
  let pending :=
    meanwhile {| user := user h; session := session h; loading := true;
                 error := None; effects := effects h ++ [SdkSignOut] |} in
  (Return tt,
   {| user := None; session := None; loading := false;
      error := error pending;
      effects := (effects pending ++ [RouterPush "/"]) ++ [RouterRefresh] |}).
Proof. intros Hr. hook_unfold. simpl. rewrite Hr. reflexivity. Qed.

Lemma refreshSession_state
    (h : Hook) (meanwhile : Hook -> Hook) (result : Settled Session) :
  refreshSession result meanwhile h =
  let pending :=
    meanwhile {| user := user h; session := session h; loading := true;
                 error := None; effects := effects h ++ [SdkRefreshSession] |} in
  match result with
  | Rejected v =>
      (Throw v,
       {| user := user pending; session := session pending; loading := false;
          error := Some (message_or "Failed to refresh session" v);
          effects := effects pending |})
  | Fulfilled r =>
      match resp_error r with
      | Some refreshError =>
          (Throw (thrown_of_AuthError refreshError),
           {| user := user pending; session := session pending;
              loading := false; error := Some (auth_message refreshError);
              effects := effects pending |})
      | None =>
          (Return tt,
           {| user := session_user <$> resp_data r; session := resp_data r;
              loading := false; error := error pending;
              effects := effects pending |})
      end
  end.
Proof.
  hook_unfold. simpl. destruct result as [r | v]; [| reflexivity].
  simpl. destruct (resp_error r); reflexivity.
Qed.

Lemma signOut_state_cases
    (h : Hook) (meanwhile : Hook -> Hook) (result : Settled unit) :
  let pending :=
    meanwhile {| user := user h; session := session h; loading := true;
                 error := None; effects := effects h ++ [SdkSignOut] |} in
  let h' := (signOut result meanwhile h).2 in
  loading h' = false /\
  ((user h' = None /\ session h' = None /\
    effects h' = (effects pending ++ [RouterPush "/"]) ++ [RouterRefresh] /\
    error h' = error pending) \/
   (user h' = user pending /\ session h' = session pending /\
    effects h' = effects pending)).
Proof.
  destruct (failure result) as [v |] eqn:Hf.
  - rewrite (signOut_failure h meanwhile result v Hf). simpl. auto.
  - destruct result as [r | v]; [| discriminate]. simpl in Hf.
    destruct (resp_error r) eqn:Hr; [discriminate |].
    rewrite (signOut_success h meanwhile r Hr). simpl.
    split; [reflexivity | left; auto].
Qed.

Lemma deliver_consistent ns (h : Hook) :
  user h = session_user <$> session h ->
  user (deliver ns h) = session_user <$> session (deliver ns h).
Proof.
  intros Hc. destruct (deliver_last ns h) as [Hs Hu]. rewrite Hs, Hu.
  destruct (last ns); [reflexivity | exact Hc].
Qed.

Lemma run_operation_invariant (op : Operation) (h : Hook) :
  user h = session_user <$> session h ->
  user (run_operation op h) = session_user <$> session (run_operation op h) /\
  loading (run_operation op h) = false.
Proof.
  intros Hc. destruct op as [event cs | result ns | result ns]; simpl.
  - rewrite callback_state. simpl. auto.
  - destruct (signOut_state_cases h (deliver ns) result)
      as (Hl & [(Hu & Hs & _) | (Hu & Hs & _)]).
    + rewrite Hu, Hs, Hl. auto.
    + rewrite Hu, Hs, Hl. split; [| reflexivity].
      apply deliver_consistent. exact Hc.
  - rewrite refreshSession_state. simpl.
    match goal with
    | |- context [deliver ns ?h0] =>
        assert (Hd : user (deliver ns h0) = session_user <$> session (deliver ns h0))
          by (apply deliver_consistent; exact Hc)
    end.
    destruct result as [r | v]; [destruct (resp_error r) |]; simpl; auto.
Qed.

Lemma mount_invariant (fetch : Settled Session)
    (ns : list (AuthChangeEvent * option Session)) :
  let h := (useEffect_body fetch ns initial).2 in
  user h = session_user <$> session h /\ loading h = false.
Proof.
  rewrite useEffect_body_unfold. simpl.
  match goal with
  | |- context [deliver ns ?h0] =>
      assert (Hd : user (deliver ns h0) = session_user <$> session (deliver ns h0))
        by (apply deliver_consistent; reflexivity)
  end.
  destruct fetch as [r | v]; [destruct (resp_error r) |]; simpl; auto.
Qed.

(** An invariant of the mounted hook.  Whatever the initial fetch settles
    to and whatever notifications, sign-outs and refreshes follow, with
    whatever results: once the operations have completed, [user] is the user
    of [session] (null exactly when [session] is null) and [loading] is
    false. *)
Theorem hook_user_follows_session
    (fetch : Settled Session) (ns : list (AuthChangeEvent * option Session))
    (ops : list Operation) :
  user (hook_run fetch ns ops) = session_user <$> session (hook_run fetch ns ops) /\
  loading (hook_run fetch ns ops) = false.
Proof.
  unfold hook_run.
  induction ops as [| op ops IH] using rev_ind.
  - apply mount_invariant.
  - rewrite fold_left_app. simpl.
    apply run_operation_invariant, IH.
Qed.

(** What [useIsAuthenticated] reports about a mounted hook: never loading,
    and authenticated exactly when the hook holds a session. *)
Theorem useIsAuthenticated_reports_session
    (fetch : Settled Session) (ns : list (AuthChangeEvent * option Session))
    (ops : list Operation) :
  useIsAuthenticated (hook_run fetch ns ops) =
  {| isAuthenticated := non_null (session (hook_run fetch ns ops));
     isAuthenticated_loading := false |}.
Proof.
  destruct (mount_invariant fetch ns) as [Hu0 Hl0].
  assert (Hinv : user (hook_run fetch ns ops) =
                   session_user <$> session (hook_run fetch ns ops) /\
                 loading (hook_run fetch ns ops) = false).
  { unfold hook_run. induction ops as [| op ops IH] using rev_ind.
    - split; assumption.
    - rewrite fold_left_app. simpl. apply run_operation_invariant, IH. }
  destruct Hinv as [Hu Hl].
  unfold useIsAuthenticated. rewrite Hu, Hl.
  destruct (session (hook_run fetch ns ops)); reflexivity.
Qed.

Lemma filter_refreshes (p : Effect -> bool) (l : list (AuthChangeEvent * option Session)) :
  p RouterRefresh = false ->
  List.filter p (map (fun _ => RouterRefresh) l) = [].
Proof.
  intros Hp. induction l as [| n l IH]; simpl; [reflexivity |].
  rewrite Hp. exact IH.
Qed.

Lemma count_deliver (p : Effect -> bool) ns (h : Hook) :
  p RouterRefresh = false ->
  length (List.filter p (effects (deliver ns h))) =
  length (List.filter p (effects h)).
Proof.
  intros Hp. rewrite deliver_effects, List.filter_app, length_app.
  rewrite (filter_refreshes p _ Hp). simpl. lia.
Qed.

Lemma count_operation (p : Effect -> bool) (op : Operation) (h : Hook) :
  p RouterRefresh = false -> (forall path, p (RouterPush path) = false) ->
  p SdkSignOut = false -> p SdkRefreshSession = false ->
  length (List.filter p (effects (run_operation op h))) =
  length (List.filter p (effects h)).
Proof.
  intros Hr Hp Hso Hrs.
  destruct op as [event cs | result ns | result ns]; simpl.
  - rewrite callback_state. simpl.
    destruct event; try reflexivity;
      rewrite List.filter_app, length_app; simpl; rewrite Hr; simpl; lia.
  - destruct (signOut_state_cases h (deliver ns) result)
      as (_ & [(_ & _ & He & _) | (_ & _ & He)]); rewrite He;
      rewrite ?List.filter_app, ?length_app, (count_deliver p ns _ Hr); simpl;
      rewrite List.filter_app, length_app; simpl;
      rewrite ?Hr, ?Hp, ?Hso; simpl; lia.
  - assert (He : effects (refreshSession result (deliver ns) h).2 =
                 effects (deliver ns
                   {| user := user h; session := session h; loading := true;
                      error := None;
                      effects := effects h ++ [SdkRefreshSession] |})).
    { rewrite refreshSession_state. simpl.
      destruct result as [r | v]; [destruct (resp_error r) |]; reflexivity. }
    rewrite He, (count_deliver p ns _ Hr). simpl.
    rewrite List.filter_app, length_app. simpl. rewrite Hrs. simpl. lia.
Qed.

(** Over the whole life of a mounted hook the SDK is asked for the session
    once and subscribed to once: notifications, sign-outs and refreshes
    never fetch the session again and never add a subscription. *)
Theorem hook_fetches_and_subscribes_once
    (fetch : Settled Session) (ns : list (AuthChangeEvent * option Session))
    (ops : list Operation) :
  session_fetches (hook_run fetch ns ops) = 1 /\
  subscriptions (hook_run fetch ns ops) = 1.
Proof.
  unfold session_fetches, subscriptions, hook_run.
  induction ops as [| op ops IH] using rev_ind.
  - simpl.
    assert (He : effects (useEffect_body fetch ns initial).2 =
                 effects (deliver ns
                   {| user := None; session := None; loading := true;
                      error := None;
                      effects := [SdkGetSession; SdkOnAuthStateChange] |})).
    { rewrite useEffect_body_unfold. simpl.
      destruct fetch as [r | v]; [destruct (resp_error r) |]; reflexivity. }
    rewrite He, !count_deliver by reflexivity. split; reflexivity.
  - rewrite fold_left_app. simpl.
    rewrite !count_operation by (intros; reflexivity). exact IH.
Qed.

(** A successful [refreshSession] stores the refreshed session and its user
    (null for a null session), ends with [loading] false, returns normally,
    and, unlike [signOut], does nothing to the router: its only effect is
    the SDK call. *)
Theorem refreshSession_success
    (h : Hook) (meanwhile : Hook -> Hook) (r : Response Session) :
  resp_error r = None ->
  let pending :=
    meanwhile {| user := user h; session := session h; loading := true;
                 error := None; effects := effects h ++ [SdkRefreshSession] |} in
  let h' := (refreshSession (Fulfilled r) meanwhile h).2 in
  (refreshSession (Fulfilled r) meanwhile h).1 = Return tt /\
  session h' = resp_data r /\ user h' = session_user <$> resp_data r /\
  loading h' = false /\ error h' = error pending /\
  effects h' = effects pending.
Proof.
  intros Hr. rewrite refreshSession_state. simpl. rewrite Hr. simpl. auto 10.
Qed.

Lemma refreshSession_success_witness :
  resp_error {| resp_data := Some alice_session; resp_error := None |} = None /\
  ((refreshSession session_found id initial).1 = Return tt /\
   session (refreshSession session_found id initial).2 = Some alice_session /\
   user (refreshSession session_found id initial).2 = Some alice /\
   loading (refreshSession session_found id initial).2 = false /\
   error (refreshSession session_found id initial).2 = None /\
   effects (refreshSession session_found id initial).2 = [SdkRefreshSession]).
Proof.
  split; [reflexivity |].
  exact (refreshSession_success initial id
           {| resp_data := Some alice_session; resp_error := None |} eq_refl).
Defined.

(** A failing [refreshSession] (the SDK answers with an error, or the call
    is rejected) re-raises the failure, ends with [loading] false, records
    the failure's message, or ['Failed to refresh session'] for a value
    that is not an [Error] instance, and writes neither [user] nor
    [session]: the hook keeps the session it had. *)
Theorem refreshSession_failure
    (h : Hook) (meanwhile : Hook -> Hook) (result : Settled Session)
    (v : thrown) :
  failure result = Some v ->
  let pending :=
    meanwhile {| user := user h; session := session h; loading := true;
                 error := None; effects := effects h ++ [SdkRefreshSession] |} in
  let h' := (refreshSession result meanwhile h).2 in
  (refreshSession result meanwhile h).1 = Throw v /\
  loading h' = false /\
  error h' = Some (message_or "Failed to refresh session" v) /\
  user h' = user pending /\ session h' = session pending.
Proof.
  intros Hf. rewrite refreshSession_state. simpl.
  destruct result as [r | v0]; simpl in Hf.
  - destruct (resp_error r) as [e |]; [| discriminate].
    injection Hf as <-. simpl. auto.
  - injection Hf as <-. simpl. auto.
Qed.

Lemma refreshSession_failure_witness :
  failure session_refused = Some (ErrorInstance "JWT expired") /\
  (refreshSession session_refused id signed_in).1 =
    Throw (ErrorInstance "JWT expired") /\
  error (refreshSession session_refused id signed_in).2 = Some "JWT expired" /\
  session (refreshSession session_refused id signed_in).2 = Some alice_session /\
  error (refreshSession (Rejected network_down) id signed_in).2 =
    Some "Failed to refresh session".
Proof.
  split; [reflexivity |].
  destruct (refreshSession_failure signed_in id session_refused
              (ErrorInstance "JWT expired") eq_refl)
    as (Ho & _ & He & _ & Hs).
  destruct (refreshSession_failure signed_in id (Rejected network_down)
              network_down eq_refl)
    as (_ & _ & He' & _ & _).
  split; [exact Ho |]. split; [exact He |]. split; [exact Hs | exact He'].
Defined.

(** A successful [signOut] during whose SDK call notifications arrive: any
    error recorded before is cleared, and what the hook did is the SDK call,
    one [router.refresh()] per SIGNED_IN or SIGNED_OUT notification, then
    [router.push('/')] and [router.refresh()]. *)
Theorem signOut_with_notifications
    (h : Hook) (ns : list (AuthChangeEvent * option Session))
    (r : Response unit) :
  resp_error r = None ->
  let h' := (signOut (Fulfilled r) (deliver ns) h).2 in
  error h' = None /\
  effects h' =
    effects h ++ [SdkSignOut]
      ++ map (fun _ => RouterRefresh) (List.filter is_sign_event ns)
      ++ [RouterPush "/"; RouterRefresh].
Proof.
  intros Hr. rewrite (signOut_success h (deliver ns) r Hr). simpl.
  split.
  - match goal with
    | |- context [deliver ns ?h0] => destruct (deliver_frame ns h0) as [He _]
    end.
    exact He.
  - rewrite deliver_effects. simpl. rewrite <- !app_assoc. reflexivity.
Qed.

Lemma signOut_with_notifications_witness :
  resp_error {| resp_data := @None unit; resp_error := None |} = None /\
  effects (signOut signOut_ok
             (deliver [(SIGNED_OUT, None); (TOKEN_REFRESHED, None)])
             signed_in).2 =
    [SdkGetSession; SdkOnAuthStateChange; SdkSignOut; RouterRefresh;
     RouterPush "/"; RouterRefresh].
Proof.
  split; [reflexivity |].
  exact (proj2 (signOut_with_notifications signed_in
                  [(SIGNED_OUT, None); (TOKEN_REFRESHED, None)]
                  {| resp_data := None; resp_error := None |} eq_refl)).
Defined.

(* ===================================================================== *)
(** * The redirect of [useRequireAuth]                                    *)
(* ===================================================================== *)

Lemma hex_digit_unreserved (n : nat) : Uri.unreserved (Uri.hex_digit n) = true.
Proof. do 15 (destruct n as [| n]; [reflexivity |]). reflexivity. Qed.

Lemma encodeURIComponent_chars (s0 : string) (a : ascii) :
  In a (list_ascii_of_string (Uri.encodeURIComponent s0)) ->
  Uri.unreserved a = true \/ a = "%"%char.
Proof.
  induction s0 as [| b rest IH]; simpl; [intros [] |].
  destruct (Uri.unreserved b) eqn:Hb; simpl.
  - intros [<- | Hin]; [left; exact Hb | apply IH, Hin].
  - intros [<- | [<- | [<- | Hin]]].
    + right. reflexivity.
    + left. apply hex_digit_unreserved.
    + left. apply hex_digit_unreserved.
    + apply IH, Hin.
Qed.

Lemma hex_digit_inj (m n : nat) :
  m < 16 -> n < 16 -> Uri.hex_digit m = Uri.hex_digit n -> m = n.
Proof.
  intros Hm Hn.
  do 16 (destruct m as [| m];
         [do 16 (destruct n as [| n];
                 [simpl; intros H; (reflexivity || discriminate H) |]); lia |]).
  lia.
Qed.

Lemma escape_inj (a b : ascii) (x y : string) :
  Uri.escape a x = Uri.escape b y -> a = b /\ x = y.
Proof.
  unfold Uri.escape.
  pose proof (nat_ascii_bounded a) as Ha.
  pose proof (nat_ascii_bounded b) as Hb.
  pose proof (Nat.div_mod_eq (nat_of_ascii a) 16) as Ea.
  pose proof (Nat.div_mod_eq (nat_of_ascii b) 16) as Eb.
  pose proof (Nat.mod_upper_bound (nat_of_ascii a) 16) as Hla.
  pose proof (Nat.mod_upper_bound (nat_of_ascii b) 16) as Hlb.
  remember (nat_of_ascii a / 16) as ha.
  remember (nat_of_ascii a mod 16) as la.
  remember (nat_of_ascii b / 16) as hb.
  remember (nat_of_ascii b mod 16) as lb.
  intros H. injection H as Hhi Hlo Hxy.
  split; [| exact Hxy].
  apply hex_digit_inj in Hhi; [| lia | lia].
  apply hex_digit_inj in Hlo; [| lia | lia].
  rewrite <- (ascii_nat_embedding a), <- (ascii_nat_embedding b).
  f_equal. lia.
Qed.

Lemma encodeURIComponent_inj (s1 s2 : string) :
  Uri.encodeURIComponent s1 = Uri.encodeURIComponent s2 -> s1 = s2.
Proof.
  revert s2. induction s1 as [| a r1 IH]; intros [| b r2]; simpl.
  - reflexivity.
  - destruct (Uri.unreserved b); discriminate.
  - destruct (Uri.unreserved a); discriminate.
  - destruct (Uri.unreserved a) eqn:Ha, (Uri.unreserved b) eqn:Hb.
    + intros H. injection H as -> H. f_equal. apply IH, H.
    + unfold Uri.escape. intros H. injection H as -> _. discriminate Ha.
    + unfold Uri.escape. intros H. injection H as <- _. discriminate Hb.
    + intros H. apply escape_inj in H as [-> H]. f_equal. apply IH, H.
Qed.

Lemma append_inj_l (prefix x y : string) :
  prefix +:+ x = prefix +:+ y -> x = y.
Proof.
  induction prefix as [| a prefix IH]; simpl; [auto |].
  intros H. injection H as H. apply IH, H.
Qed.

Lemma useRequireAuth_effect_unfold
    (redirectTo : option string) (pathname : string) (h : Hook) :
  useRequireAuth_effect redirectTo pathname h =
  (Return tt,
   if negb (loading h) && negb (non_null (user h))
   then {| user := user h; session := session h; loading := loading h;
           error := error h;
           effects := effects h ++
             [RouterPush (default "/login" redirectTo +:+ "?redirectTo="
                            +:+ Uri.encodeURIComponent pathname)] |}
   else h).
Proof.
  unfold useRequireAuth_effect, perform, mbind, M_bind, bind, gets, modify,
    mret, M_ret, ret.
  simpl. destruct (negb (loading h) && negb (non_null (user h))); reflexivity.
Qed.

(** [useRequireAuth] navigates only for a settled, signed-out hook.  While
    [loading] is true, or with a user, its effect does nothing.  With
    [loading] false and no user it pushes one route: [redirectTo] (['/login']
    when omitted), then [?redirectTo=], then the encoded current path, in
    which every character is unreserved or [%], so that no [&], [=], [?],
    [#] or [/] of the path reaches the query string. *)
Theorem useRequireAuth_redirect
    (redirectTo : option string) (pathname : string) (h : Hook) :
  (loading h = true \/ user h <> None ->
   useRequireAuth_effect redirectTo pathname h = (Return tt, h)) /\
  (loading h = false -> user h = None ->
   useRequireAuth_effect redirectTo pathname h =
     (Return tt,
      {| user := None; session := session h; loading := false;
         error := error h;
         effects := effects h ++
           [RouterPush (default "/login" redirectTo +:+ "?redirectTo="
                          +:+ Uri.encodeURIComponent pathname)] |})) /\
  (forall a, In a (list_ascii_of_string (Uri.encodeURIComponent pathname)) ->
     ~ In a ["&"; "="; "?"; "#"; "/"; " "]%char).
Proof.
  split; [| split].
  - intros Hc. rewrite useRequireAuth_effect_unfold.
    destruct Hc as [-> | Hu]; [reflexivity |].
    destruct (user h); [| congruence].
    simpl. rewrite andb_false_r. reflexivity.
  - intros Hl Hu. rewrite useRequireAuth_effect_unfold, Hl, Hu. reflexivity.
  - intros a Hin Hbad.
    apply encodeURIComponent_chars in Hin.
    simpl in Hbad.
    destruct Hbad as [<- | [<- | [<- | [<- | [<- | [<- | []]]]]]];
      destruct Hin as [Hin | Hin]; discriminate Hin.
Qed.

Lemma useRequireAuth_redirect_witness :
  (loading initial = true \/ user initial <> None) /\
  useRequireAuth_effect None "/dashboard" initial = (Return tt, initial) /\
  effects (useRequireAuth_effect None "/listings/new york?tab=1"
             (useEffect_body session_refused [] initial).2).2 =
    [SdkGetSession; SdkOnAuthStateChange;
     RouterPush "/login?redirectTo=%2Flistings%2Fnew%20york%3Ftab%3D1"].
Proof.
  split; [left; reflexivity |].
  destruct (useRequireAuth_redirect None "/dashboard" initial) as (Hidle & _).
  split; [apply Hidle; left; reflexivity |].
  destruct (useRequireAuth_redirect None "/listings/new york?tab=1"
              (useEffect_body session_refused [] initial).2)
    as (_ & Hpush & _).
  rewrite Hpush; reflexivity.
Defined.

(** The redirect loses nothing of the path: for a settled, signed-out hook
    and one [redirectTo], two runs of the effect of [useRequireAuth] that
    push the same route started from the same current path. *)
Theorem useRequireAuth_redirect_determines_path
    (redirectTo : option string) (p1 p2 : string) (h : Hook) :
  loading h = false -> user h = None ->
  useRequireAuth_effect redirectTo p1 h = useRequireAuth_effect redirectTo p2 h ->
  p1 = p2.
Proof.
  intros Hl Hu. rewrite !useRequireAuth_effect_unfold, Hl, Hu. simpl.
  intros H. injection H as H. apply app_inv_head in H. injection H as H.
  apply append_inj_l, append_inj_l in H.
  apply encodeURIComponent_inj, H.
Qed.

Lemma useRequireAuth_redirect_determines_path_witness :
  let h := (useEffect_body session_refused [] initial).2 in
  loading h = false /\ user h = None /\
  (useRequireAuth_effect None "/a b" h = useRequireAuth_effect None "/a%20b" h ->
   "/a b" = "/a%20b").
Proof.
  intros h. split; [reflexivity | split; [reflexivity |]].
  apply (useRequireAuth_redirect_determines_path None "/a b" "/a%20b" h);
    reflexivity.
Defined.

(** A page guarded by [useRequireAuth]: on the first render, before anything
    has settled, it does not redirect; once the initial fetch has settled
    and whatever operations followed have completed, none pending, it
    redirects to the login route exactly when the hook holds no session. *)
Theorem protected_page_redirects_iff_no_session
    (fetch : Settled Session) (ns : list (AuthChangeEvent * option Session))
    (ops : list Operation) (redirectTo : option string) (pathname : string) :
  useRequireAuth_effect redirectTo pathname initial = (Return tt, initial) /\
  effects (useRequireAuth_effect redirectTo pathname
             (hook_run fetch ns ops)).2 =
    if non_null (session (hook_run fetch ns ops))
    then effects (hook_run fetch ns ops)
    else effects (hook_run fetch ns ops) ++
           [RouterPush (default "/login" redirectTo +:+ "?redirectTo="
                          +:+ Uri.encodeURIComponent pathname)].
Proof.
  split; [reflexivity |].
  assert (Hinv : user (hook_run fetch ns ops) =
                   session_user <$> session (hook_run fetch ns ops) /\
                 loading (hook_run fetch ns ops) = false).
  { unfold hook_run. induction ops as [| op ops IH] using rev_ind.
    - apply mount_invariant.
    - rewrite fold_left_app. simpl. apply run_operation_invariant, IH. }
  destruct Hinv as [Hu Hl].
  rewrite useRequireAuth_effect_unfold, Hu, Hl.
  destruct (session (hook_run fetch ns ops)); reflexivity.
Qed.

(* ===================================================================== *)
(** * The mock client                                                     *)
(* ===================================================================== *)

Lemma invoke_unfold (f : SupabaseMock.MockFn) (args : list string)
    (m : SupabaseMock.Mocks) :
  SupabaseMock.invoke f args m =
  (Return (SupabaseMock.implementation m f),
   {| SupabaseMock.implementation := SupabaseMock.implementation m;
      SupabaseMock.recorded := SupabaseMock.recorded m ++ [(f, args)] |}).
Proof. reflexivity. Qed.

Lemma eq_and_order_uncalled_snoc (m : SupabaseMock.Mocks)
    (f : SupabaseMock.MockFn) (args : list string) :
  eq_and_order_uncalled m ->
  f <> SupabaseMock.mockEq -> f <> SupabaseMock.mockOrder ->
  eq_and_order_uncalled
    {| SupabaseMock.implementation := SupabaseMock.implementation m;
       SupabaseMock.recorded := SupabaseMock.recorded m ++ [(f, args)] |}.
Proof.
  intros Hm He Ho g a Hin. simpl in Hin.
  apply in_app_or in Hin as [Hin | [Hin | []]]; [apply (Hm g a Hin) |].
  injection Hin as <- _. split; assumption.
Qed.

(** One call through a mock function stored on a reachable value calls
    [mockFrom], [mockSelect] or [mockInsert] and yields a reachable value. *)
Lemma own_call_step (v : SupabaseMock.value) (key : string)
    (args : list string) (m : SupabaseMock.Mocks) (f : SupabaseMock.MockFn) :
  mock_reachable v -> mock_configured m -> eq_and_order_uncalled m ->
  SupabaseMock.own_method v key = Some f ->
  mock_configured (SupabaseMock.invoke f args m).2 /\
  eq_and_order_uncalled (SupabaseMock.invoke f args m).2 /\
  (forall v', (SupabaseMock.invoke f args m).1 = Return v' ->
              mock_reachable v').
Proof.
  intros Hv Hcfg Hrec Hown. pose proof Hcfg as (Hfrom & Hinsert & Hselect).
  assert (Hf : f = SupabaseMock.mockFrom \/ f = SupabaseMock.mockSelect \/
               f = SupabaseMock.mockInsert).
  { unfold mock_reachable in Hv.
    destruct Hv as [-> | [-> | [-> | ->]]]; cbn -[String.eqb] in Hown;
      repeat match type of Hown with
             | context [String.eqb ?x ?y] =>
                 destruct (String.eqb x y); cbn -[String.eqb] in Hown
             end;
      try discriminate Hown; injection Hown as <-; auto. }
  rewrite invoke_unfold. simpl.
  split; [exact Hcfg |].
  split.
  - apply eq_and_order_uncalled_snoc; [exact Hrec | |];
      destruct Hf as [-> | [-> | ->]]; discriminate.
  - intros v' H. injection H as <-. unfold mock_reachable.
    destruct Hf as [-> | [-> | ->]];
      rewrite ?Hfrom, ?Hinsert, ?Hselect; auto.
Qed.

Lemma call_chain_uncalled (keys : list (string * list string)) :
  forall (v : SupabaseMock.value) (m : SupabaseMock.Mocks),
    mock_reachable v -> mock_configured m -> eq_and_order_uncalled m ->
    eq_and_order_uncalled (call_chain v keys m).2.
Proof.
  induction keys as [| [key args] rest IH]; intros v m Hv Hcfg Hrec.
  - exact Hrec.
  - simpl. destruct (SupabaseMock.own_method v key) as [f |] eqn:Hown;
      [| exact Hrec].
    unfold mbind, M_bind, bind.
    destruct (own_call_step v key args m f Hv Hcfg Hrec Hown)
      as (Hcfg' & Hrec' & Hv').
    destruct (SupabaseMock.invoke f args m) as [[v' | e] m'];
      simpl in *; [| exact Hrec'].
    apply IH; [apply Hv'; reflexivity | exact Hcfg' | exact Hrec'].
Qed.

(** [mockSelect] is configured twice, last as the [select] of [insert], and
    the last configuration is the one in force.  So on the mock client
    [from(..).select(..)] is already the promise of an empty result, as is
    [from(..).insert(..).select(..)]; that promise holds no mock function,
    so there is no [eq] or [order] of the mock after [select]; and whatever
    chain of calls a test makes through the mock functions stored on the
    client, [mockEq] and [mockOrder] are never called. *)
Theorem mock_select_is_terminal
    (m0 : SupabaseMock.Mocks) (table cols row args : list string)
    (key : string) (keys : list (string * list string)) :
  (mock_query [("from", table); ("select", cols)] m0).1 =
    Return (Some (SupabaseMock.Promise SupabaseMock.EmptyResult)) /\
  (mock_query [("from", table); ("insert", row); ("select", cols)] m0).1 =
    Return (Some (SupabaseMock.Promise SupabaseMock.EmptyResult)) /\
  (mock_query [("from", table); ("select", cols); (key, args)] m0).1 =
    Return None /\
  (forall f called_with,
      In (f, called_with) (SupabaseMock.recorded (mock_query keys m0).2) ->
      f <> SupabaseMock.mockEq /\ f <> SupabaseMock.mockOrder).
Proof.
  split; [reflexivity |]. split; [reflexivity |]. split; [reflexivity |].
  change (eq_and_order_uncalled (mock_query keys m0).2).
  unfold mock_query, mbind, M_bind, bind.
  destruct (SupabaseMock.createMockSupabaseClient m0) as [[client | e] m] eqn:Hc;
    [| discriminate Hc].
  injection Hc as <- <-.
  apply call_chain_uncalled.
  - left. reflexivity.
  - repeat split.
  - intros f called_with [].
Qed.

Lemma mock_select_is_terminal_witness :
  In (SupabaseMock.mockSelect, ["*"])
     (SupabaseMock.recorded
        (mock_query [("from", ["listings"]); ("insert", ["row"]);
                     ("select", ["*"])]
           SupabaseMock.fresh).2) /\
  SupabaseMock.mockSelect <> SupabaseMock.mockEq.
Proof.
  assert (Hin : In (SupabaseMock.mockSelect, ["*"])
                  (SupabaseMock.recorded
                     (mock_query [("from", ["listings"]); ("insert", ["row"]);
                                  ("select", ["*"])]
                        SupabaseMock.fresh).2))
    by (vm_compute; right; right; left; reflexivity).
  split; [exact Hin |].
  destruct (mock_select_is_terminal SupabaseMock.fresh [] [] [] [] ""
              [("from", ["listings"]); ("insert", ["row"]); ("select", ["*"])])
    as (_ & _ & _ & Hnever).
  exact (proj1 (Hnever _ _ Hin)).
Defined.
